(** * sambacc.config: the container configuration model

    A shallow embedding of [src/sambacc/config.py] and the properties of its
    document loader, instance view, share view and identity derivation.

    Python values are embedded as follows.
    - What [json.load] returns is a [json] value: [None], [bool], [int],
      [float], [str], [list] and [dict] with [str] keys.
    - A Python [dict] is an association list in insertion order; its keys are
      pairwise distinct ([dict_wf]), which assignment and [update] preserve.
    - A Python [int] is a [Z]; [bool] is a subclass of [int], so a value that
      passed [isinstance(_, int)] is a [pyint].
    - A raised exception is a value of [exn]; code that can raise returns
      [exn + A]; a generator is the list of what it yields together with the
      exception that ends the iteration, if any ([gen]).
    - [GlobalConfig.load] mutates [self.data]: it is a function from the store
      before the call to the outcome and the store after it. *)

From Stdlib Require Import ZArith List String Ascii Bool Lia.
From Stdlib Require Import DecimalString SpecFloat.
From Stdlib Require DecimalPos DecimalZ.
Import ListNotations.

Local Open Scope string_scope.
Local Open Scope list_scope.
Local Open Scope Z_scope.

(** ** Python dictionaries *)

Module PyDict.
Section Ops.
Context {K V : Type}.
(** Key equality, as [__eq__] (with equal hashes) decides it. *)
Variable eqb : K -> K -> bool.

Definition t := list (K * V).

(** [d.get(k)], [None] standing for the missing key. *)
Fixpoint get (k : K) (d : t) : option V :=
  match d with
  | [] => None
  | (k', v) :: d' => if eqb k k' then Some v else get k d'
  end.

(** [k in d]. *)
Definition mem (k : K) (d : t) : bool :=
  match get k d with Some _ => true | None => false end.

(** [d[k] = v]: an existing key keeps its place (and its key object), a new
    key goes last. *)
Fixpoint set (k : K) (v : V) (d : t) : t :=
  match d with
  | [] => [(k, v)]
  | (k', v') :: d' =>
      if eqb k k' then (k', v) :: d' else (k', v') :: set k v d'
  end.

(** [del d[k]] for a key that is present. *)
Fixpoint del (k : K) (d : t) : t :=
  match d with
  | [] => []
  | (k', v') :: d' => if eqb k k' then d' else (k', v') :: del k d'
  end.

(** [d.update(other)]: the items of [other], in order, assigned into [d]. *)
Definition update (d other : t) : t :=
  fold_left (fun acc kv => set (fst kv) (snd kv) acc) other d.

Definition keys (d : t) : list K := map fst d.
Definition values (d : t) : list V := map snd d.
Definition items (d : t) : list (K * V) := d.
End Ops.
Arguments t : clear implicits.
End PyDict.

(** ** Parsed JSON *)

#[local] Set Warnings "-register-all".

Inductive json : Type :=
| JNull
| JBool (b : bool)
| JInt (z : Z)
| JFloat (f : spec_float)
| JString (s : string)
| JList (l : list json)
| JDict (d : list (string * json)).

(** A dict as [json.load] builds it: [str] keys, compared with [==]. *)
Definition jdict := PyDict.t string json.

Definition jget : string -> jdict -> option json := PyDict.get String.eqb.
Definition jset : string -> json -> jdict -> jdict := PyDict.set String.eqb.
Definition jupdate : jdict -> jdict -> jdict := PyDict.update String.eqb.

(** The keys of a Python dict are pairwise distinct. *)
Definition dict_wf (d : jdict) : Prop := NoDup (PyDict.keys d).

(** ** Python integers *)

Inductive pyint : Type :=
| PyInt (z : Z)
| PyBool (b : bool).

Definition int_value (i : pyint) : Z :=
  match i with
  | PyInt z => z
  | PyBool true => 1
  | PyBool false => 0
  end.

(** [a == b] on integers; [True == 1] and they hash alike. *)
Definition pyint_eqb (a b : pyint) : bool := int_value a =? int_value b.

(** [bool(i)]. *)
Definition pyint_truthy (i : pyint) : bool := negb (int_value i =? 0).

(** [str(i)]. *)
Definition pyint_str (i : pyint) : string :=
  match i with
  | PyInt z => NilZero.string_of_int (Z.to_int z)
  | PyBool true => "True"
  | PyBool false => "False"
  end.

Definition pyint_to_json (i : pyint) : json :=
  match i with
  | PyInt z => JInt z
  | PyBool b => JBool b
  end.

(** ** Exceptions *)

(** The text of an exception raised by the module itself: a literal, or an
    f-string made of a literal followed by one interpolated value. *)
Inductive message : Type :=
| Msg (text : string)
| MsgFmt (text : string) (arg : json).

Inductive exn : Type :=
| ValueError (msg : message)
| KeyError (key : json)
| AttributeError (attr : string)
| TypeError
| IndexError.

Definition result (A : Type) : Type := (exn + A)%type.

Definition ok {A} (a : A) : result A := inr a.
Definition raise {A} (e : exn) : result A := inl e.

Definition rbind {A B} (m : result A) (k : A -> result B) : result B :=
  match m with
  | inl e => inl e
  | inr a => k a
  end.

Declare Scope py_scope.
Delimit Scope py_scope with py.
Notation "x <- m ;; k" := (rbind m (fun x => k))
  (at level 61, m at next level, right associativity) : py_scope.
Local Open Scope py_scope.

(** ** Builtin operations on parsed JSON *)

(** [bool(v)]. *)
Definition truthy (v : json) : bool :=
  match v with
  | JNull => false
  | JBool b => b
  | JInt z => negb (z =? 0)
  | JFloat f =>
      match f with
      | S754_zero _ => false
      | _ => true
      end
  | JString s => negb (s =? "")%string
  | JList l => match l with [] => false | _ => true end
  | JDict d => match d with [] => false | _ => true end
  end.

(** [v is None]. *)
Definition is_None (v : json) : bool :=
  match v with
  | JNull => true
  | _ => false
  end.

(** [v == s] for a [str] constant [s]. *)
Definition eq_str (v : json) (s : string) : bool :=
  match v with
  | JString s' => (s' =? s)%string
  | _ => false
  end.

(** [v in l] for a list [l] of [str] constants. *)
Definition in_strs (v : json) (l : list string) : bool :=
  existsb (eq_str v) l.

(** [v.get(key, default)]; only [dict] has the method. *)
Definition py_get (v : json) (key : string) (default : json) : result json :=
  match v with
  | JDict d =>
      match jget key d with
      | Some x => ok x
      | None => ok default
      end
  | _ => raise (AttributeError "get")
  end.

(** [v.items()]; only [dict] has the method. *)
Definition py_items (v : json) : result (list (string * json)) :=
  match v with
  | JDict d => ok (PyDict.items d)
  | _ => raise (AttributeError "items")
  end.

(** Sequence indexing [l[i]], a negative [i] counting from the end. *)
Definition seq_index {A} (l : list A) (i : Z) : result A :=
  let n := Z.of_nat (List.length l) in
  let j := if i <? 0 then i + n else i in
  if (j <? 0) || (n <=? j) then raise IndexError
  else match nth_error l (Z.to_nat j) with
       | Some x => ok x
       | None => raise IndexError
       end.

(** The characters of a [str], one per element of the [string]: exact for
    ASCII text, where a character is one byte. *)
Definition chars (s : string) : list json :=
  map (fun c => JString (String c EmptyString)) (list_ascii_of_string s).

(** [v[key]]. *)
Definition py_getitem (v key : json) : result json :=
  match v with
  | JDict d =>
      match key with
      | JString s =>
          match jget s d with
          | Some x => ok x
          | None => raise (KeyError key)
          end
      | JList _ | JDict _ => raise TypeError
      | _ => raise (KeyError key)
      end
  | JList l =>
      match key with
      | JInt i => seq_index l i
      | JBool b => seq_index l (int_value (PyBool b))
      | _ => raise TypeError
      end
  | JString s =>
      match key with
      | JInt i => seq_index (chars s) i
      | JBool b => seq_index (chars s) (int_value (PyBool b))
      | _ => raise TypeError
      end
  | _ => raise TypeError
  end.

(** What [for x in v] iterates over. *)
Definition py_iter (v : json) : result (list json) :=
  match v with
  | JList l => ok l
  | JDict d => ok (map JString (PyDict.keys d))
  | JString s => ok (chars s)
  | _ => raise TypeError
  end.

(** [enumerate(l)]. *)
Fixpoint enumerate_from {A} (n : Z) (l : list A) : list (Z * A) :=
  match l with
  | [] => []
  | x :: l' => (n, x) :: enumerate_from (n + 1) l'
  end.

Definition enumerate {A} (l : list A) : list (Z * A) := enumerate_from 0 l.

(** ** Generators *)

(** The values a generator yields when it is iterated to its end, and the
    exception that ends the iteration, if one is raised. *)
Definition gen (A : Type) : Type := (list A * option exn)%type.

Definition gen_done {A} : gen A := ([], None).
Definition gen_yield {A} (x : A) : gen A := ([x], None).
Definition gen_raise {A} (e : exn) : gen A := ([], Some e).

Definition gen_seq {A} (g1 g2 : gen A) : gen A :=
  match g1 with
  | (xs, Some e) => (xs, Some e)
  | (xs, None) => (xs ++ fst g2, snd g2)
  end.

(** Evaluate [m]; if it raises, so does the generator. *)
Definition gen_try {A B} (m : result A) (k : A -> gen B) : gen B :=
  match m with
  | inl e => gen_raise e
  | inr a => k a
  end.

Definition gen_yield_from {A} (l : list A) : gen A := (l, None).

(** [for x in l: body(x)] in a generator. *)
Fixpoint gen_for {A B} (l : list A) (body : A -> gen B) : gen B :=
  match l with
  | [] => gen_done
  | x :: l' => gen_seq (body x) (gen_for l' body)
  end.

(** ** The module *)

Definition _VALID_VERSIONS : list string := ["v0"].

(** *** GlobalConfig *)

Record GlobalConfig : Type := mkGlobalConfig { data : jdict }.

(** A method that mutates [self]: the outcome and the object afterwards. *)
Definition method (A : Type) : Type := GlobalConfig -> result A * GlobalConfig.

(** [GlobalConfig.load], from the document that [json.load(source)] parsed.
    [data.get] is the first thing done with the document, and only a dict
    has it. *)
Definition load (source : json) : method unit := fun self =>
  match source with
  | JDict data_ =>
      let version :=
        match jget "samba-container-config" data_ with
        | Some v => v
        | None => JNull
        end in
      if is_None version then
        (raise (ValueError
                  (Msg "Invalid config: no samba-container-config key")),
         self)
      else if negb (in_strs version _VALID_VERSIONS) then
        (raise (ValueError (MsgFmt "Invalid config: unknown version " version)),
         self)
      else (ok tt, mkGlobalConfig (jupdate (data self) data_))
  | _ => (raise (AttributeError "get"), self)
  end.

(** [GlobalConfig.__init__]. *)
Definition GlobalConfig_init (source : option json) : result unit * GlobalConfig :=
  let self := mkGlobalConfig [] in
  match source with
  | Some src => load src self
  | None => (ok tt, self)
  end.

(** The loop of [read_config_files], over the documents read from the named
    files; the first failing [load] ends it. *)
Fixpoint load_all (sources : list json) : method unit := fun self =>
  match sources with
  | [] => (ok tt, self)
  | src :: rest =>
      match load src self with
      | (inl e, self') => (raise e, self')
      | (inr _, self') => load_all rest self'
      end
  end.

Definition read_config_files (sources : list json) : result GlobalConfig :=
  match load_all sources (mkGlobalConfig []) with
  | (inl e, _) => raise e
  | (inr _, gconfig) => ok gconfig
  end.

(** *** InstanceConfig *)

Record InstanceConfig : Type := mkInstanceConfig {
  gconfig : GlobalConfig;
  iconfig : json
}.

(** [self.data[key]] on the store, which is always a dict. *)
Definition data_getitem (g : GlobalConfig) (key : string) : result json :=
  py_getitem (JDict (data g)) (JString key).

(** [self.data.get(key, {})]. *)
Definition data_get (g : GlobalConfig) (key : string) : result json :=
  py_get (JDict (data g)) key (JDict []).

(** [GlobalConfig.get]. *)
Definition get (self : GlobalConfig) (ident : json) : result InstanceConfig :=
  configs <- data_getitem self "configs" ;;
  iconfig_ <- py_getitem configs ident ;;
  ok (mkInstanceConfig self iconfig_).

(** The inner loop of [global_options] for one section name. *)
Definition section_options (g : GlobalConfig) (gname : json)
  : result (list (string * json)) :=
  globals <- data_getitem g "globals" ;;
  global_section <- py_getitem globals gname ;;
  options <- py_get global_section "options" (JDict []) ;;
  py_items options.

(** The per-instance settings that end [global_options]. *)
Definition instance_options (self : InstanceConfig) : gen (string * json) :=
  gen_try (py_get (iconfig self) "instance_name" JNull) (fun instance_name =>
  if truthy instance_name
  then gen_yield ("netbios name", instance_name)
  else gen_done).

(** [InstanceConfig.global_options]. *)
Definition global_options (self : InstanceConfig) : gen (string * json) :=
  gen_try (py_getitem (iconfig self) (JString "globals")) (fun gnames =>
  gen_try (py_iter gnames) (fun gnames =>
  gen_seq
    (gen_for gnames (fun gname =>
       gen_try (section_options (gconfig self) gname) gen_yield_from))
    (instance_options self))).

Definition uid_base (self : InstanceConfig) : Z := 1000.
Definition gid_base (self : InstanceConfig) : Z := 1000.

(** *** ShareConfig *)

Record ShareConfig : Type := mkShareConfig {
  share_gconfig : GlobalConfig;
  name : json
}.

(** [InstanceConfig.shares]. *)
Definition shares (self : InstanceConfig) : gen ShareConfig :=
  gen_try (py_get (iconfig self) "shares" (JList [])) (fun snames =>
  gen_try (py_iter snames) (fun snames =>
  gen_for snames (fun sname =>
    gen_yield (mkShareConfig (gconfig self) sname)))).

(** [ShareConfig.share_options]. *)
Definition share_options (self : ShareConfig) : result (list (string * json)) :=
  shares_ <- data_getitem (share_gconfig self) "shares" ;;
  share_section <- py_getitem shares_ (name self) ;;
  options <- py_get share_section "options" (JDict []) ;;
  py_items options.

(** *** UserEntry and GroupEntry *)

(** [urec.get("nt_hash", "")] and [urec.get("password", "")] are kept as the
    values that [str] is applied to; [str] cannot fail on them. *)
Record UserEntry : Type := mkUserEntry {
  user_iconfig : InstanceConfig;
  username : json;
  entry_num : Z;
  _uid : option pyint;
  _gid : option pyint;
  _nt_passwd : json;
  _plaintext_passwd : json
}.

(** [GroupEntry.__init__] stores no [entry_num]. *)
Record GroupEntry : Type := mkGroupEntry {
  group_iconfig : InstanceConfig;
  groupname : json;
  group_gid : option pyint
}.

(** The check made on a raw id [v = rec.get(field)]:
    [if v is not None: if not isinstance(v, int): raise ValueError(text)]. *)
Definition check_id (text : string) (v : json) : result (option pyint) :=
  match v with
  | JNull => ok None
  | JInt z => ok (Some (PyInt z))
  | JBool b => ok (Some (PyBool b))
  | _ => raise (ValueError (Msg text))
  end.

(** [UserEntry.__init__]. *)
Definition UserEntry_init (iconf : InstanceConfig) (urec : json) (num : Z)
  : result UserEntry :=
  username_ <- py_getitem urec (JString "name") ;;
  uid_ <- py_get urec "uid" JNull ;;
  gid_ <- py_get urec "gid" JNull ;;
  nt_hash <- py_get urec "nt_hash" (JString "") ;;
  password <- py_get urec "password" (JString "") ;;
  uid_ <- check_id "invalid uid value" uid_ ;;
  gid_ <- check_id "invalid gid value" gid_ ;;
  ok (mkUserEntry iconf username_ num uid_ gid_ nt_hash password).

(** [if x: return x], else the fallback. *)
Definition explicit_id (x : option pyint) : option pyint :=
  match x with
  | Some i => if pyint_truthy i then Some i else None
  | None => None
  end.

(** [UserEntry.uid]. *)
Definition uid (self : UserEntry) : pyint :=
  match explicit_id (_uid self) with
  | Some i => i
  | None => PyInt (uid_base (user_iconfig self) + entry_num self)
  end.

(** [UserEntry.gid]. *)
Definition gid (self : UserEntry) : pyint :=
  match explicit_id (_gid self) with
  | Some i => i
  | None => PyInt (gid_base (user_iconfig self) + entry_num self)
  end.

Definition dir (self : UserEntry) : string := "/invalid".
Definition shell (self : UserEntry) : string := "/bin/false".
Definition nt_passwd (self : UserEntry) : json := _nt_passwd self.
Definition plaintext_passwd (self : UserEntry) : json := _plaintext_passwd self.

(** [UserEntry.passwd_fields]; the name is the raw record's, as it is. *)
Definition passwd_fields (self : UserEntry)
  : json * string * string * string * string * string * string :=
  (username self,
   "x",
   pyint_str (uid self),
   pyint_str (gid self),
   "",
   dir self,
   shell self).

(** [GroupEntry.__init__]; [num] is not used. *)
Definition GroupEntry_init (iconf : InstanceConfig) (grec : json) (num : Z)
  : result GroupEntry :=
  groupname_ <- py_getitem grec (JString "name") ;;
  gid_ <- py_get grec "gid" JNull ;;
  gid_ <- check_id "invalid gid value" gid_ ;;
  ok (mkGroupEntry iconf groupname_ gid_).

(** [GroupEntry.gid]: without an explicit id, [self.entry_num] is read after
    [gid_base()] was called, and the object has no such attribute. *)
Definition GroupEntry_gid (self : GroupEntry) : result pyint :=
  match explicit_id (group_gid self) with
  | Some i => ok i
  | None =>
      let base := gid_base (group_iconfig self) in
      raise (AttributeError "entry_num")
  end.

(** [GroupEntry.group_fields]. *)
Definition group_fields (self : GroupEntry)
  : result (json * string * string * string) :=
  g <- GroupEntry_gid self ;;
  ok (groupname self, "x", pyint_str g, "").

(** [UserEntry.vgroup]: the record is [dict(name=self.username, gid=self.gid)]. *)
Definition vgroup (self : UserEntry) : result GroupEntry :=
  GroupEntry_init (user_iconfig self)
    (JDict [("name", username self); ("gid", pyint_to_json (gid self))]) 0.

(** *** Users and groups of an instance *)

(** [self.gconfig.data.get(section, {}).get("all_entries", {})], then the
    iteration that [enumerate] starts. *)
Definition all_entries (self : InstanceConfig) (section : string)
  : result (list (Z * json)) :=
  sec <- data_get (gconfig self) section ;;
  entries <- py_get sec "all_entries" (JDict []) ;;
  entries <- py_iter entries ;;
  ok (enumerate entries).

(** [InstanceConfig.users]. *)
Definition users (self : InstanceConfig) : gen UserEntry :=
  gen_try (all_entries self "users") (fun all_users =>
  gen_for all_users (fun '(n, entry) =>
    gen_try (UserEntry_init self entry n) gen_yield)).

Definition gid_map := PyDict.t pyint UserEntry.

(** [{u.gid: u for u in us}]. *)
Definition users_by_gid (us : list UserEntry) : gid_map :=
  fold_left (fun d u => PyDict.set pyint_eqb (gid u) u d) us [].

(** [entry.gid()] on a raw record: [entry] is what [json.load] produced, and
    none of [dict], [list], [str], [int], [float], [bool] and [NoneType] has
    an attribute [gid]. *)
Definition entry_gid (entry : json) : result pyint :=
  raise (AttributeError "gid").

(** The first loop of [groups]: what it yields and how it ends, and the
    auxiliary map afterwards. *)
Fixpoint groups_loop (self : InstanceConfig) (entries : list (Z * json))
  (user_gids : gid_map) : gen GroupEntry * gid_map :=
  match entries with
  | [] => (gen_done, user_gids)
  | (n, entry) :: rest =>
      match entry_gid entry with
      | inl e => (gen_raise e, user_gids)
      | inr g =>
          let claimed :=
            if PyDict.mem pyint_eqb g user_gids
            then g' <- entry_gid entry ;; ok (PyDict.del pyint_eqb g' user_gids)
            else ok user_gids in
          match claimed with
          | inl e => (gen_raise e, user_gids)
          | inr user_gids' =>
              match GroupEntry_init self entry n with
              | inl e => (gen_raise e, user_gids')
              | inr group =>
                  let (g2, final) := groups_loop self rest user_gids' in
                  (gen_seq (gen_yield group) g2, final)
              end
          end
      end
  end.

(** [InstanceConfig.groups]. *)
Definition groups (self : InstanceConfig) : gen GroupEntry :=
  match users self with
  | (_, Some e) => gen_raise e
  | (us, None) =>
      let user_gids := users_by_gid us in
      gen_try (all_entries self "groups") (fun all_groups =>
      let (explicit, user_gids') := groups_loop self all_groups user_gids in
      gen_seq explicit
        (gen_for (PyDict.values user_gids') (fun uentry =>
           gen_try (vgroup uentry) gen_yield)))
  end.

(** ** Vocabulary of the statements *)

Definition version_key : string := "samba-container-config".

Definition doc_no_marker : json :=
  JDict [("configs", JDict [("x", JDict [])])].

Definition store_one : GlobalConfig :=
  mkGlobalConfig [("samba-container-config", JString "v0");
                  ("globals", JDict [])].

Definition or_None (v : option json) : json :=
  match v with
  | Some x => x
  | None => JNull
  end.

Definition or_empty (v : option json) : json :=
  match v with
  | Some x => x
  | None => JString ""
  end.

(** The source list of a section of identity records. *)
Definition source_list (g : GlobalConfig) (section : string) (raw : list json) : Prop :=
  exists sec,
    jget section (data g) = Some (JDict sec) /\
    jget "all_entries" sec = Some (JList raw).

(** The raw id values that the constructors let through: a missing field,
    [None], an [int], and a [bool] (which is an [int] for [isinstance]). *)
Definition accepted_id (v : option json) : bool :=
  match v with
  | None => true
  | Some JNull => true
  | Some (JInt _) => true
  | Some (JBool _) => true
  | Some _ => false
  end.

Definition virtual_group (u : UserEntry) : GroupEntry :=
  mkGroupEntry (user_iconfig u) (username u) (Some (gid u)).

(** The options a global section stores: those of its ["options"] object, in
    stored order, and none when it has no such key. *)
Definition stored_options (sec : jdict) (opts : list (string * json)) : Prop :=
  jget "options" sec = Some (JDict opts) \/
  (jget "options" sec = None /\ opts = []).

(** [name] is a section of the mapping [sections], with options [opts]. *)
Definition has_section (sections : jdict) (name : string)
  (opts : list (string * json)) : Prop :=
  exists sec, jget name sections = Some (JDict sec) /\ stored_options sec opts.

(** ** Concrete configurations *)

Definition instance_x : json :=
  JDict [("globals", JList [JString "g1"]); ("shares", JList [JString "s1"])].

Definition base_document : jdict :=
  [("samba-container-config", JString "v0");
   ("configs", JDict [("x", instance_x)]);
   ("globals",
    JDict [("g1", JDict [("options", JDict [("workgroup", JString "WG")])])]);
   ("shares",
    JDict [("s1", JDict [("options", JDict [("path", JString "/srv")])])])].

Definition alice : jdict := [("name", JString "alice")].
Definition bob : jdict :=
  [("name", JString "bob"); ("uid", JInt 2000); ("gid", JInt 0)].
Definition staff : jdict := [("name", JString "staff"); ("gid", JInt 1000)].
Definition wheel : jdict := [("name", JString "wheel")].

(** One user, no group record. *)
Definition store_alice : GlobalConfig :=
  mkGlobalConfig
    (base_document ++ [("users", JDict [("all_entries", JList [JDict alice])])]).

(** One user, and a group record with the gid the user derives. *)
Definition store_alice_staff : GlobalConfig :=
  mkGlobalConfig
    (base_document ++
     [("users", JDict [("all_entries", JList [JDict alice])]);
      ("groups", JDict [("all_entries", JList [JDict staff])])]).

Definition store_two_users : GlobalConfig :=
  mkGlobalConfig
    (base_document ++
     [("users", JDict [("all_entries", JList [JDict alice; JDict bob])])]).

Definition inst_alice : InstanceConfig := mkInstanceConfig store_alice instance_x.
Definition inst_alice_staff : InstanceConfig :=
  mkInstanceConfig store_alice_staff instance_x.
Definition inst_two_users : InstanceConfig :=
  mkInstanceConfig store_two_users instance_x.

Definition user_bob : UserEntry :=
  mkUserEntry inst_two_users (JString "bob") 1
    (Some (PyInt 2000)) (Some (PyInt 0)) (JString "") (JString "").

(** An instance whose name is the empty string. *)
Definition instance_unnamed : jdict :=
  [("globals", JList [JString "g1"]); ("instance_name", JString "")].

Definition instance_named : jdict :=
  [("globals", JList [JString "g1"; JString "g1"]);
   ("instance_name", JString "FILESRV")].

Definition instance_dangling : jdict :=
  [("globals", JList [JString "g1"; JString "g2"; JString "g1"])].

Definition g1_sections : jdict :=
  [("g1", JDict [("options", JDict [("workgroup", JString "WG")])])].

Definition null_uid : jdict := [("name", JString "carol"); ("uid", JNull)].
Definition true_gid : jdict := [("name", JString "ops"); ("gid", JBool true)].
Definition text_uid : jdict := [("name", JString "dave"); ("uid", JString "abc")].

Definition second_document : jdict :=
  [("samba-container-config", JString "v0");
   ("globals", JDict [("g2", JDict [])])].

(** ** Vocabulary of the further properties *)

(** A document that [load] accepts, as [json.load] builds it: an object with
    pairwise distinct keys whose version marker is "v0". *)
Definition valid_document (d : jdict) : Prop :=
  dict_wf d /\ jget version_key d = Some (JString "v0").

(** The store after the documents were merged into it one after the other. *)
Definition merge_all (store : jdict) (docs : list jdict) : jdict :=
  fold_left jupdate docs store.

(** No document of the list has the key. *)
Definition key_absent (k : string) (docs : list jdict) : Prop :=
  Forall (fun d => jget k d = None) docs.

Definition third_document : jdict :=
  [("samba-container-config", JString "v0");
   ("shares", JDict [("s9", JDict [])])].

Definition unversioned_document : jdict :=
  [("samba-container-config", JString "v1"); ("configs", JDict [])].

(** The section of identity records is missing from the store, or has no
    ["all_entries"], or an empty list of them. *)
Definition no_records (g : GlobalConfig) (section : string) : Prop :=
  jget section (data g) = None \/
  exists sec,
    jget section (data g) = Some (JDict sec) /\
    (jget "all_entries" sec = None \/ jget "all_entries" sec = Some (JList [])).

(** A record that the user constructor accepts, and its name. *)
Definition good_record (entry name_ : json) : Prop :=
  exists r,
    entry = JDict r /\
    jget "name" r = Some name_ /\
    accepted_id (jget "uid" r) = true /\
    accepted_id (jget "gid" r) = true.

(** The positions [start], [start + 1], ... of [n] entries. *)
Fixpoint positions (start : Z) (n : nat) : list Z :=
  match n with
  | O => []
  | S n' => start :: positions (start + 1) n'
  end.

(** The gid a yielded group stores, as a number. *)
Definition stored_gid (g : GroupEntry) : option Z :=
  option_map int_value (group_gid g).

(** The last user of the list whose gid equals [k]. *)
Definition last_with_gid (k : pyint) (us : list UserEntry) : option UserEntry :=
  find (fun u => pyint_eqb k (gid u)) (rev us).

(** The keys of the map of users by gid, as numbers. *)
Definition codes (d : gid_map) : list Z := map (fun p => int_value (fst p)) d.

(** Each key of the map equals the gid of the user stored under it. *)
Definition keyed_by_gid (d : gid_map) : Prop :=
  Forall (fun p => int_value (fst p) = int_value (gid (snd p))) d.

Definition store_plain : GlobalConfig := mkGlobalConfig base_document.
Definition inst_plain : InstanceConfig := mkInstanceConfig store_plain instance_x.

(** A store whose instance document is not an object. *)
Definition store_odd : GlobalConfig :=
  mkGlobalConfig [("configs", JDict [("x", JList [])])].

Definition instance_no_globals : jdict := [("instance_name", JString "FILESRV")].
Definition instance_no_sections : jdict :=
  [("globals", JList []); ("instance_name", JString "FILESRV")].
Definition instance_lost_share : jdict := [("shares", JList [JString "nowhere"])].

Definition stored_shares : jdict :=
  [("s1", JDict [("options", JDict [("path", JString "/srv")])])].

Definition zero_ids : jdict :=
  [("name", JString "root"); ("uid", JInt 0); ("gid", JBool false)].
Definition carol : jdict := [("name", JString "carol"); ("gid", JInt 1000)].
Definition nameless : jdict := [("uid", JString "abc")].

Definition store_users (records : list json) : GlobalConfig :=
  mkGlobalConfig
    (base_document ++ [("users", JDict [("all_entries", JList records)])]).

Definition inst_users (records : list json) : InstanceConfig :=
  mkInstanceConfig (store_users records) instance_x.

Definition user_root : UserEntry :=
  mkUserEntry (inst_users [JDict zero_ids]) (JString "root") 0
    (Some (PyInt 0)) (Some (PyBool false)) (JString "") (JString "").

(** The version marker of a document: the value under the marker key of an
    object; a document that is not an object has no keys. *)
Definition marker_of (source : json) : option json :=
  match source with
  | JDict d => jget version_key d
  | _ => None
  end.

Definition array_document : json := JList [JInt 1; JInt 2].

(** * Properties *)

(** ** Dictionaries *)

Lemma jget_jset (k k' : string) (v : json) (d : jdict) :
  jget k (jset k' v d) = if (k =? k')%string then Some v else jget k d.
Proof.
  induction d as [|[k1 v1] d IH]; simpl.
  - reflexivity.
  - destruct (String.eqb_spec k' k1) as [->|Hne]; simpl.
    + destruct (k =? k1)%string; reflexivity.
    + rewrite IH.
      destruct (String.eqb_spec k k') as [->|Hkk'].
      * destruct (String.eqb_spec k' k1); [contradiction|reflexivity].
      * reflexivity.
Qed.

Lemma jget_not_in (k : string) (d : jdict) :
  ~ In k (PyDict.keys d) -> jget k d = None.
Proof.
  induction d as [|[k1 v1] d IH]; simpl; intros Hnin.
  - reflexivity.
  - destruct (String.eqb_spec k k1) as [->|Hne].
    + exfalso. apply Hnin. now left.
    + apply IH. intros Hin. apply Hnin. now right.
Qed.

(** [update] is a shallow merge: a key of [other] takes [other]'s value, any
    other key keeps the value it had. *)
Lemma jget_jupdate (k : string) (d other : jdict) :
  dict_wf other ->
  jget k (jupdate d other) =
    match jget k other with
    | Some v => Some v
    | None => jget k d
    end.
Proof.
  unfold jupdate, PyDict.update, dict_wf.
  revert d.
  induction other as [|[k1 v1] other IH]; intros d Hwf; simpl.
  - reflexivity.
  - inversion Hwf as [|? ? Hnin Hwf']; subst.
    rewrite IH by assumption.
    fold (jset k1 v1 d). rewrite jget_jset.
    destruct (String.eqb_spec k k1) as [->|Hne].
    + fold (jget k1 other). now rewrite (jget_not_in k1 other Hnin).
    + reflexivity.
Qed.

Lemma keys_jset (x k : string) (v : json) (d : jdict) :
  In x (PyDict.keys (jset k v d)) -> x = k \/ In x (PyDict.keys d).
Proof.
  induction d as [|[k1 v1] d IH]; simpl.
  - intros [<-|[]]. now left.
  - destruct (k =? k1)%string; simpl.
    + intros H. now right.
    + intros [<-|H]; [right; now left|].
      destruct (IH H) as [->|Hin]; [now left|right; now right].
Qed.

(** Assignment and [update] keep the keys of a dict pairwise distinct. *)
Lemma jset_wf (k : string) (v : json) (d : jdict) :
  dict_wf d -> dict_wf (jset k v d).
Proof.
  unfold dict_wf.
  induction d as [|[k1 v1] d IH]; simpl; intros Hwf.
  - constructor; [intros []|constructor].
  - inversion Hwf as [|? ? Hnin Hwf']; subst.
    destruct (String.eqb_spec k k1) as [->|Hne]; simpl.
    + constructor; assumption.
    + constructor; [|now apply IH].
      intros Hin. destruct (keys_jset _ _ _ _ Hin) as [->|Hin'].
      * now apply Hne.
      * now apply Hnin.
Qed.

Lemma jupdate_wf (d other : jdict) :
  dict_wf d -> dict_wf (jupdate d other).
Proof.
  unfold jupdate, PyDict.update. revert d.
  induction other as [|[k v] other IH]; simpl; intros d Hwf.
  - exact Hwf.
  - apply IH. exact (jset_wf k v d Hwf).
Qed.

(** ** The document loader *)

Lemma in_valid_versions (v : json) :
  in_strs v _VALID_VERSIONS = true <-> v = JString "v0".
Proof.
  unfold in_strs, _VALID_VERSIONS; simpl. rewrite orb_false_r.
  destruct v; simpl; try (split; [discriminate|discriminate]).
  rewrite String.eqb_eq. split; [intros ->; reflexivity|intros [= ->]; reflexivity].
Qed.

Lemma load_accepts (d : jdict) (self : GlobalConfig) :
  jget version_key d = Some (JString "v0") ->
  load (JDict d) self = (ok tt, mkGlobalConfig (jupdate (data self) d)).
Proof.
  unfold load, version_key. intros ->. reflexivity.
Qed.

Lemma load_no_marker (d : jdict) (self : GlobalConfig) :
  jget version_key d = None ->
  load (JDict d) self =
    (raise (ValueError (Msg "Invalid config: no samba-container-config key")),
     self).
Proof.
  unfold load, version_key. intros ->. reflexivity.
Qed.

Lemma load_bad_marker (d : jdict) (self : GlobalConfig) (v : json) :
  jget version_key d = Some v ->
  v <> JString "v0" ->
  exists msg, load (JDict d) self = (raise (ValueError msg), self).
Proof.
  unfold load, version_key. intros -> Hv.
  destruct (is_None v).
  - eexists. reflexivity.
  - destruct (in_strs v _VALID_VERSIONS) eqn:E.
    + apply in_valid_versions in E. contradiction.
    + eexists. reflexivity.
Qed.

(** Whatever is loaded, the store remains a dict. *)
Lemma load_wf (source : json) (self : GlobalConfig) :
  dict_wf (data self) -> dict_wf (data (snd (load source self))).
Proof.
  intros Hwf. unfold load.
  destruct source; try exact Hwf.
  destruct (is_None _); [exact Hwf|].
  destruct (negb _); [exact Hwf|].
  simpl. now apply jupdate_wf.
Qed.

(** A document that is not a JSON object has no [get]. *)
Lemma load_not_object (source : json) (self : GlobalConfig) :
  (forall d, source <> JDict d) ->
  load source self = (raise (AttributeError "get"), self).
Proof.
  intros H. destruct source; try reflexivity.
  exfalso. now apply (H d).
Qed.

(** C5: loading a document that is a JSON object fails exactly when the
    object has no version marker key or the marker's value is not "v0", and
    every such failure is the ValueError that reports an invalid config; an
    object with the marker "v0" is accepted and merged: afterwards each
    top-level key of the document has the document's value in the store,
    and every other key has the value the store had. *)
Theorem load_object_invalid_config_iff (d : jdict) (self : GlobalConfig) :
  ((exists e, fst (load (JDict d) self) = raise e) <->
   (jget version_key d = None \/
    exists v, jget version_key d = Some v /\ v <> JString "v0"))
  /\ (forall e, fst (load (JDict d) self) = raise e -> exists msg, e = ValueError msg)
  /\ (jget version_key d = Some (JString "v0") ->
      exists self',
        load (JDict d) self = (ok tt, self') /\
        (dict_wf d ->
         forall k,
           jget k (data self') =
             match jget k d with
             | Some v => Some v
             | None => jget k (data self)
             end)).
Proof.
  split; [|split].
  - destruct (jget version_key d) as [v|] eqn:Hv.
    + assert ({v = JString "v0"} + {v <> JString "v0"}) as [->|Hne].
      { destruct v; try (right; discriminate).
        destruct (string_dec s "v0") as [->|Hs]; [left; reflexivity|].
        right. intros [= ->]. now apply Hs. }
      * rewrite (load_accepts d self Hv). simpl.
        split; [intros [e [=]]|].
        intros [[=]|[v [[= <-] Hne]]]. now contradiction Hne.
      * destruct (load_bad_marker d self v Hv Hne) as [msg Hload].
        rewrite Hload. simpl.
        split; [intros _|intros _; eexists; reflexivity].
        right. exists v. now split.
    + rewrite (load_no_marker d self Hv). simpl.
      split; [intros _; now left|intros _; eexists; reflexivity].
  - intros e He.
    destruct (jget version_key d) as [v|] eqn:Hv.
    + assert ({v = JString "v0"} + {v <> JString "v0"}) as [->|Hne].
      { destruct v; try (right; discriminate).
        destruct (string_dec s "v0") as [->|Hs]; [left; reflexivity|].
        right. intros [= ->]. now apply Hs. }
      * rewrite (load_accepts d self Hv) in He. discriminate He.
      * destruct (load_bad_marker d self v Hv Hne) as [msg Hload].
        rewrite Hload in He. injection He as <-. now exists msg.
    + rewrite (load_no_marker d self Hv) in He. injection He as <-.
      eexists. reflexivity.
  - intros Hv.
    exists (mkGlobalConfig (jupdate (data self) d)).
    split; [exact (load_accepts d self Hv)|].
    intros Hwf k. simpl. exact (jget_jupdate k (data self) d Hwf).
Qed.

(** C10: a load that raises, for whatever reason, leaves the store as it was
    before the call; the document is merged only once its version marker has
    been accepted. *)
Theorem load_failure_keeps_store (source : json) (self : GlobalConfig) (e : exn) :
  fst (load source self) = raise e ->
  snd (load source self) = self.
Proof.
  unfold load.
  destruct source; try reflexivity.
  destruct (is_None _); [reflexivity|].
  destruct (negb _); [reflexivity|].
  simpl. intros [=].
Qed.

Lemma load_failure_keeps_store_witness :
  fst (load doc_no_marker store_one) =
    raise (ValueError (Msg "Invalid config: no samba-container-config key"))
  /\ snd (load doc_no_marker store_one) = store_one.
Proof.
  split.
  - reflexivity.
  - apply (load_failure_keeps_store doc_no_marker store_one
             (ValueError (Msg "Invalid config: no samba-container-config key"))).
    reflexivity.
Defined.

(** C6: two valid documents loaded one after the other are merged key by key
    at the top level: a top-level key of the second document has the second
    document's value, whole; a key only the first document has keeps the
    first document's value; any other key keeps what the store had. *)
Theorem load_twice_shallow_merge (d1 d2 : jdict) (self : GlobalConfig) :
  dict_wf d1 -> dict_wf d2 ->
  jget version_key d1 = Some (JString "v0") ->
  jget version_key d2 = Some (JString "v0") ->
  exists self1 self2,
    load (JDict d1) self = (ok tt, self1) /\
    load (JDict d2) self1 = (ok tt, self2) /\
    forall k,
      jget k (data self2) =
        match jget k d2 with
        | Some v => Some v
        | None =>
            match jget k d1 with
            | Some v => Some v
            | None => jget k (data self)
            end
        end.
Proof.
  intros Hwf1 Hwf2 Hv1 Hv2.
  eexists. eexists.
  split; [apply load_accepts; assumption|].
  split; [apply load_accepts; assumption|].
  intros k. simpl.
  rewrite (jget_jupdate k _ d2 Hwf2).
  rewrite (jget_jupdate k _ d1 Hwf1).
  reflexivity.
Qed.

(** ** Generators *)

Lemma enumerate_from_nth {A} (l : list A) (n : Z) (i : nat) (m : Z) (x : A) :
  nth_error (enumerate_from n l) i = Some (m, x) ->
  m = n + Z.of_nat i /\ nth_error l i = Some x.
Proof.
  revert n i. induction l as [|y l IH]; intros n i; simpl.
  - destruct i; discriminate.
  - destruct i as [|i]; simpl.
    + intros [= <- <-]. split; [lia|reflexivity].
    + intros H. apply IH in H as [-> H]. split; [lia|assumption].
Qed.

Lemma nth_enumerate_from {A} (l : list A) (n : Z) (i : nat) (x : A) :
  nth_error l i = Some x ->
  nth_error (enumerate_from n l) i = Some (n + Z.of_nat i, x).
Proof.
  revert n i. induction l as [|y l IH]; intros n i; simpl.
  - destruct i; discriminate.
  - destruct i as [|i]; simpl.
    + intros [= ->]. f_equal. f_equal. lia.
    + intros H. rewrite (IH (n + 1) i H). f_equal. f_equal. lia.
Qed.

(** Whatever a loop of the shape [for x in l: yield f(x)] yields at position
    [i] was built from the element of [l] at position [i]. *)
Lemma gen_for_try_nth {A B} (f : A -> result B) (l : list A)
  (ys : list B) (ending : option exn) (i : nat) (y : B) :
  gen_for l (fun x => gen_try (f x) gen_yield) = (ys, ending) ->
  nth_error ys i = Some y ->
  exists x, nth_error l i = Some x /\ f x = ok y.
Proof.
  revert ys ending i. induction l as [|x l IH]; intros ys ending i; simpl.
  - intros [= <- <-]. destruct i; discriminate.
  - destruct (f x) as [e|y0] eqn:Hfx; simpl.
    + intros [= <- <-]. destruct i; discriminate.
    + destruct (gen_for l _) as [ys' ending'] eqn:Hrest. simpl.
      intros [= <- <-]. destruct i as [|i]; simpl.
      * intros [= <-]. exists x. now split.
      * intros Hy. destruct (IH ys' ending' i eq_refl Hy) as [x' [Hx' Hf]].
        exists x'. now split.
Qed.

(** A loop whose body never raises yields one value per element. *)
Lemma gen_for_try_all {A B} (f : A -> result B) (l : list A) (ys : list B) :
  Forall2 (fun x y => f x = ok y) l ys ->
  gen_for l (fun x => gen_try (f x) gen_yield) = (ys, None).
Proof.
  induction 1 as [|x y l ys Hxy _ IH]; simpl.
  - reflexivity.
  - rewrite Hxy, IH. reflexivity.
Qed.

(** ** Users *)

(** [UserEntry.__init__] on a record that is a JSON object. *)
Lemma UserEntry_init_dict (iconf : InstanceConfig) (r : jdict) (n : Z) :
  UserEntry_init iconf (JDict r) n =
    match jget "name" r with
    | None => raise (KeyError (JString "name"))
    | Some nm =>
        uid_ <- check_id "invalid uid value" (or_None (jget "uid" r)) ;;
        gid_ <- check_id "invalid gid value" (or_None (jget "gid" r)) ;;
        ok (mkUserEntry iconf nm n uid_ gid_
              (or_empty (jget "nt_hash" r)) (or_empty (jget "password" r)))
    end.
Proof.
  unfold UserEntry_init, py_getitem, py_get.
  destruct (jget "name" r), (jget "uid" r), (jget "gid" r),
           (jget "nt_hash" r), (jget "password" r); reflexivity.
Qed.

(** What a successful [UserEntry.__init__] stored. *)
Lemma UserEntry_init_ok (iconf : InstanceConfig) (r : jdict) (n : Z) (u : UserEntry) :
  UserEntry_init iconf (JDict r) n = ok u ->
  exists nm uid_ gid_,
    jget "name" r = Some nm /\
    check_id "invalid uid value" (or_None (jget "uid" r)) = ok uid_ /\
    check_id "invalid gid value" (or_None (jget "gid" r)) = ok gid_ /\
    u = mkUserEntry iconf nm n uid_ gid_
          (or_empty (jget "nt_hash" r)) (or_empty (jget "password" r)).
Proof.
  rewrite UserEntry_init_dict.
  destruct (jget "name" r) as [nm|]; [|discriminate].
  destruct (check_id "invalid uid value" _) as [e1|uid_]; [discriminate|].
  destruct (check_id "invalid gid value" _) as [e2|gid_]; [discriminate|].
  simpl. intros [= <-]. exists nm, uid_, gid_. repeat split; reflexivity.
Qed.

(** The resolution rule on the stored raw id. *)
Lemma explicit_id_int (U : Z) :
  U <> 0 -> explicit_id (Some (PyInt U)) = Some (PyInt U).
Proof.
  intros HU. unfold explicit_id, pyint_truthy. simpl.
  destruct (Z.eqb_spec U 0); [contradiction|reflexivity].
Qed.

(** The effective ids of one user entry built from record [r] with
    number [n]. *)
Lemma UserEntry_ids (iconf : InstanceConfig) (r : jdict) (n : Z) (u : UserEntry) :
  UserEntry_init iconf (JDict r) n = ok u ->
  (forall U, jget "uid" r = Some (JInt U) -> U <> 0 -> uid u = PyInt U) /\
  (jget "uid" r = None \/ jget "uid" r = Some (JInt 0) ->
   uid u = PyInt (uid_base iconf + n)) /\
  (forall G, jget "gid" r = Some (JInt G) -> G <> 0 -> gid u = PyInt G) /\
  (jget "gid" r = None \/ jget "gid" r = Some (JInt 0) ->
   gid u = PyInt (gid_base iconf + n)).
Proof.
  intros Hinit.
  destruct (UserEntry_init_ok _ _ _ _ Hinit)
    as (nm & uid_ & gid_ & Hnm & Hu & Hg & ->).
  unfold uid, gid; simpl.
  repeat split.
  - intros U HU Hne. rewrite HU in Hu. injection Hu as <-.
    now rewrite explicit_id_int.
  - intros [H|H]; rewrite H in Hu; injection Hu as <-; reflexivity.
  - intros G HG Hne. rewrite HG in Hg. injection Hg as <-.
    now rewrite explicit_id_int.
  - intros [H|H]; rewrite H in Hg; injection Hg as <-; reflexivity.
Qed.

Lemma all_entries_source_list (self : InstanceConfig) (section : string)
  (raw : list json) :
  source_list (gconfig self) section raw ->
  all_entries self section = ok (enumerate raw).
Proof.
  intros (sec & Hsec & Hall).
  unfold all_entries, data_get, py_get. rewrite Hsec. simpl.
  rewrite Hall. reflexivity.
Qed.

(** The entry that [users] yields at position [i] is built from the record at
    position [i], with number [i]. *)
Lemma users_nth (self : InstanceConfig) (raw : list json)
  (us : list UserEntry) (ending : option exn) (i : nat) (u : UserEntry) :
  source_list (gconfig self) "users" raw ->
  users self = (us, ending) ->
  nth_error us i = Some u ->
  exists entry,
    nth_error raw i = Some entry /\
    UserEntry_init self entry (Z.of_nat i) = ok u.
Proof.
  intros Hsrc Husers Hu. unfold users in Husers.
  rewrite (all_entries_source_list _ _ _ Hsrc) in Husers. simpl in Husers.
  destruct (gen_for_try_nth
              (fun p : Z * json => UserEntry_init self (snd p) (fst p))
              (enumerate raw) us ending i u) as [[n entry] [Hnth Hinit]].
  - rewrite <- Husers. clear.
    induction (enumerate raw) as [|[n e] l IH]; simpl; [reflexivity|].
    now rewrite IH.
  - assumption.
  - apply enumerate_from_nth in Hnth as [-> Hnth]. simpl in Hinit.
    exists entry. now split.
Qed.

(** C3: the user built from the record at zero-based position [i] of the
    users source list has, as effective uid, the record's uid when that is a
    non-zero integer, and base + i when the record has no uid or the uid 0;
    and likewise for the gid with the gid base. *)
Theorem users_effective_ids (self : InstanceConfig) (raw : list json)
  (us : list UserEntry) (ending : option exn)
  (i : nat) (r : jdict) (u : UserEntry) :
  source_list (gconfig self) "users" raw ->
  users self = (us, ending) ->
  nth_error raw i = Some (JDict r) ->
  nth_error us i = Some u ->
  (forall U, jget "uid" r = Some (JInt U) -> U <> 0 -> uid u = PyInt U) /\
  (jget "uid" r = None \/ jget "uid" r = Some (JInt 0) ->
   uid u = PyInt (uid_base self + Z.of_nat i)) /\
  (forall G, jget "gid" r = Some (JInt G) -> G <> 0 -> gid u = PyInt G) /\
  (jget "gid" r = None \/ jget "gid" r = Some (JInt 0) ->
   gid u = PyInt (gid_base self + Z.of_nat i)).
Proof.
  intros Hsrc Husers Hr Hu.
  destruct (users_nth self raw us ending i u Hsrc Husers Hu) as [entry [He Hinit]].
  rewrite Hr in He. injection He as <-.
  exact (UserEntry_ids self r (Z.of_nat i) u Hinit).
Qed.

Lemma passwd_fields_layout (u : UserEntry) :
  passwd_fields u =
    (username u, "x", pyint_str (uid u), pyint_str (gid u),
     "", "/invalid", "/bin/false").
Proof. reflexivity. Qed.

(** ** Raw id fields *)

Lemma check_id_accepted (text : string) (v : option json) :
  accepted_id v = true -> exists i, check_id text (or_None v) = ok i.
Proof.
  destruct v as [[]|]; simpl; try discriminate; intros _; eexists; reflexivity.
Qed.

Lemma check_id_rejected (text : string) (v : option json) :
  accepted_id v = false ->
  check_id text (or_None v) = raise (ValueError (Msg text)).
Proof.
  destruct v as [[]|]; simpl; try discriminate; reflexivity.
Qed.

(** ** Groups *)

(** [GroupEntry.__init__] on a record that is a JSON object. *)
Lemma GroupEntry_init_dict (iconf : InstanceConfig) (r : jdict) (n : Z) :
  GroupEntry_init iconf (JDict r) n =
    match jget "name" r with
    | None => raise (KeyError (JString "name"))
    | Some nm =>
        gid_ <- check_id "invalid gid value" (or_None (jget "gid" r)) ;;
        ok (mkGroupEntry iconf nm gid_)
    end.
Proof.
  unfold GroupEntry_init, py_getitem, py_get.
  destruct (jget "name" r), (jget "gid" r); reflexivity.
Qed.

(** With an explicit non-zero gid the group's effective gid is that gid;
    without one, reading it raises: the entry never stored its position. *)
Lemma GroupEntry_gid_cases (iconf : InstanceConfig) (r : jdict) (n : Z)
  (g : GroupEntry) :
  GroupEntry_init iconf (JDict r) n = ok g ->
  (forall G, jget "gid" r = Some (JInt G) -> G <> 0 ->
             GroupEntry_gid g = ok (PyInt G)) /\
  (jget "gid" r = None \/ jget "gid" r = Some (JInt 0) ->
   GroupEntry_gid g = raise (AttributeError "entry_num")).
Proof.
  rewrite GroupEntry_init_dict.
  destruct (jget "name" r) as [nm|]; [|discriminate].
  destruct (check_id "invalid gid value" _) as [e|gid_] eqn:Hg; [discriminate|].
  simpl. intros [= <-]. unfold GroupEntry_gid. simpl. split.
  - intros G HG Hne. rewrite HG in Hg. injection Hg as <-.
    now rewrite explicit_id_int.
  - intros [H|H]; rewrite H in Hg; injection Hg as <-; reflexivity.
Qed.

Lemma group_fields_explicit (g : GroupEntry) (i : pyint) :
  GroupEntry_gid g = ok i ->
  group_fields g = ok (groupname g, "x", pyint_str i, "").
Proof.
  unfold group_fields. intros ->. reflexivity.
Qed.

(** The effective gid of a user numbered from 0 upwards is never falsy. *)
Lemma gid_truthy (u : UserEntry) :
  0 <= entry_num u -> pyint_truthy (gid u) = true.
Proof.
  intros Hn. unfold gid, explicit_id.
  assert (pyint_truthy (PyInt (gid_base (user_iconfig u) + entry_num u)) = true)
    as Hdefault.
  { unfold pyint_truthy, gid_base, int_value.
    destruct (Z.eqb_spec (1000 + entry_num u) 0); [lia|reflexivity]. }
  destruct (_gid u) as [i|]; [|exact Hdefault].
  destruct (pyint_truthy i) eqn:E; [exact E|exact Hdefault].
Qed.

(** [vgroup] always builds its group: the name is the user's and the stored
    gid is the user's effective gid. *)
Lemma vgroup_ok (u : UserEntry) :
  vgroup u = ok (mkGroupEntry (user_iconfig u) (username u) (Some (gid u))).
Proof.
  unfold vgroup. rewrite GroupEntry_init_dict. simpl.
  destruct (gid u) as [z|b]; reflexivity.
Qed.

Lemma vgroup_gid (u : UserEntry) (g : GroupEntry) :
  0 <= entry_num u ->
  vgroup u = ok g ->
  groupname g = username u /\ GroupEntry_gid g = ok (gid u).
Proof.
  intros Hn. rewrite vgroup_ok. intros [= <-]. split; [reflexivity|].
  unfold GroupEntry_gid, explicit_id. simpl.
  now rewrite (gid_truthy u Hn).
Qed.

Lemma gen_for_vgroups (l : list UserEntry) :
  gen_for l (fun uentry => gen_try (vgroup uentry) gen_yield) =
    (map virtual_group l, None).
Proof.
  apply gen_for_try_all.
  induction l as [|u l IH]; simpl; constructor.
  - apply vgroup_ok.
  - exact IH.
Qed.

(** Without group records, [groups] yields one virtual group per entry of the
    map of users by gid. *)
Lemma groups_no_records (self : InstanceConfig) (us : list UserEntry) :
  users self = (us, None) ->
  all_entries self "groups" = ok [] ->
  groups self = (map virtual_group (PyDict.values (users_by_gid us)), None).
Proof.
  intros Hus Hgs. unfold groups. rewrite Hus, Hgs. simpl.
  rewrite gen_for_vgroups. reflexivity.
Qed.

(** With any group record at all, [groups] raises on the first one, before
    anything is yielded: the raw record has no [gid] method. *)
Lemma groups_first_record_raises (self : InstanceConfig) (us : list UserEntry)
  (first : Z * json) (rest : list (Z * json)) :
  users self = (us, None) ->
  all_entries self "groups" = ok (first :: rest) ->
  groups self = ([], Some (AttributeError "gid")).
Proof.
  intros Hus Hgs. unfold groups. rewrite Hus, Hgs.
  destruct first as [n entry]. reflexivity.
Qed.

(** ** Global options *)

Lemma section_options_ok (g : GlobalConfig) (globals : jdict) (gname : string)
  (opts : list (string * json)) :
  jget "globals" (data g) = Some (JDict globals) ->
  has_section globals gname opts ->
  section_options g (JString gname) = ok opts.
Proof.
  intros Hg (sec & Hsec & Hopts).
  unfold section_options, data_getitem, py_getitem. rewrite Hg. simpl.
  rewrite Hsec. simpl.
  destruct Hopts as [H|[H ->]]; rewrite H; reflexivity.
Qed.

Lemma section_options_missing (g : GlobalConfig) (globals : jdict) (gname : string) :
  jget "globals" (data g) = Some (JDict globals) ->
  jget gname globals = None ->
  section_options g (JString gname) = raise (KeyError (JString gname)).
Proof.
  intros Hg Hmissing.
  unfold section_options, data_getitem, py_getitem. rewrite Hg. simpl.
  rewrite Hmissing. reflexivity.
Qed.

Lemma gen_for_yield_from_all {A B} (f : A -> result (list B)) (l : list A)
  (yss : list (list B)) :
  Forall2 (fun x ys => f x = ok ys) l yss ->
  gen_for l (fun x => gen_try (f x) gen_yield_from) = (List.concat yss, None).
Proof.
  induction 1 as [|x ys l yss Hx _ IH]; simpl.
  - reflexivity.
  - rewrite Hx, IH. reflexivity.
Qed.

Lemma gen_for_yield_from_stop {A B} (f : A -> result (list B))
  (pre post : list A) (x : A) (e : exn) (yss : list (list B)) :
  Forall2 (fun x ys => f x = ok ys) pre yss ->
  f x = raise e ->
  gen_for (pre ++ x :: post) (fun x => gen_try (f x) gen_yield_from) =
    (List.concat yss, Some e).
Proof.
  intros Hpre Hx.
  induction Hpre as [|y ys l yss Hy _ IH]; simpl.
  - rewrite Hx. reflexivity.
  - rewrite Hy, IH. reflexivity.
Qed.

Lemma sections_ok (g : GlobalConfig) (globals : jdict) (gnames : list string)
  (secs : list (list (string * json))) :
  jget "globals" (data g) = Some (JDict globals) ->
  Forall2 (has_section globals) gnames secs ->
  Forall2 (fun x ys => section_options g x = ok ys) (map JString gnames) secs.
Proof.
  intros Hg. induction 1 as [|n opts l yss Hn _ IH]; simpl; constructor.
  - exact (section_options_ok g globals n opts Hg Hn).
  - exact IH.
Qed.

(** [global_options] of an instance whose sections all exist. *)
Lemma global_options_sections (g : GlobalConfig) (i globals : jdict)
  (gnames : list string) (secs : list (list (string * json))) :
  jget "globals" (data g) = Some (JDict globals) ->
  jget "globals" i = Some (JList (map JString gnames)) ->
  Forall2 (has_section globals) gnames secs ->
  global_options (mkInstanceConfig g (JDict i)) =
    gen_seq (List.concat secs, None) (instance_options (mkInstanceConfig g (JDict i))).
Proof.
  intros Hg Hi Hsecs.
  unfold global_options. simpl. rewrite Hi. simpl.
  rewrite (gen_for_yield_from_all _ _ secs (sections_ok g globals gnames secs Hg Hsecs)).
  reflexivity.
Qed.

(** C4: for an instance whose referenced global sections all exist,
    global_options yields the options of each referenced section, sections
    in listed order and options in stored order, nothing deduplicated; then,
    when the instance name is set to a value that is not falsy (a non-empty
    string), the pair ("netbios name", name) as the last one; with no
    instance name, or a falsy one such as the empty string, nothing more. *)
Theorem global_options_listing (g : GlobalConfig) (i globals : jdict)
  (gnames : list string) (secs : list (list (string * json))) :
  jget "globals" (data g) = Some (JDict globals) ->
  jget "globals" i = Some (JList (map JString gnames)) ->
  Forall2 (has_section globals) gnames secs ->
  (forall nm, jget "instance_name" i = Some nm -> truthy nm = true ->
     global_options (mkInstanceConfig g (JDict i)) =
       (List.concat secs ++ [("netbios name", nm)], None)) /\
  (jget "instance_name" i = None \/
   (exists nm, jget "instance_name" i = Some nm /\ truthy nm = false) ->
     global_options (mkInstanceConfig g (JDict i)) = (List.concat secs, None)).
Proof.
  intros Hg Hi Hsecs.
  rewrite (global_options_sections g i globals gnames secs Hg Hi Hsecs).
  unfold instance_options, py_get. simpl. split.
  - intros nm Hnm Ht. rewrite Hnm. simpl. rewrite Ht. reflexivity.
  - intros [Hnone|(nm & Hnm & Ht)].
    + rewrite Hnone. simpl. now rewrite app_nil_r.
    + rewrite Hnm. simpl. rewrite Ht. simpl. now rewrite app_nil_r.
Qed.

(** C8: each of these raises KeyError on the absent key: get with an
    identifier that is not in the configs mapping; global_options when a
    listed section name is not in the globals mapping (after the options of
    the sections listed before it); share_options of a share whose name is
    not in the shares mapping. *)
Theorem missing_key_raises (g : GlobalConfig) :
  (forall configs ident,
     jget "configs" (data g) = Some (JDict configs) ->
     jget ident configs = None ->
     get g (JString ident) = raise (KeyError (JString ident))) /\
  (forall globals i pre gname post secs,
     jget "globals" (data g) = Some (JDict globals) ->
     jget "globals" i = Some (JList (map JString (pre ++ gname :: post))) ->
     Forall2 (has_section globals) pre secs ->
     jget gname globals = None ->
     global_options (mkInstanceConfig g (JDict i)) =
       (List.concat secs, Some (KeyError (JString gname)))) /\
  (forall shares_ sname,
     jget "shares" (data g) = Some (JDict shares_) ->
     jget sname shares_ = None ->
     share_options (mkShareConfig g (JString sname)) =
       raise (KeyError (JString sname))).
Proof.
  split; [|split].
  - intros configs ident Hc Hi.
    unfold get, data_getitem, py_getitem. rewrite Hc. simpl.
    rewrite Hi. reflexivity.
  - intros globals i pre gname post secs Hg Hi Hpre Hmissing.
    unfold global_options. simpl. rewrite Hi. simpl.
    rewrite map_app. simpl.
    rewrite (gen_for_yield_from_stop _ _ _ _ (KeyError (JString gname)) secs
               (sections_ok g globals pre secs Hg Hpre)
               (section_options_missing g globals gname Hg Hmissing)).
    reflexivity.
  - intros shares_ sname Hs Hn.
    unfold share_options, data_getitem, py_getitem. simpl. rewrite Hs. simpl.
    rewrite Hn. reflexivity.
Qed.

(** C7: a raw user or group record (a JSON object with a name) whose uid or
    gid field holds anything but an integer, a boolean or null makes the
    constructor itself raise the ValueError for that field, the uid being
    checked before the gid; a record whose id fields are each missing, null,
    an integer or a boolean is constructed. *)
Theorem id_fields_checked_at_construction (iconf : InstanceConfig) (r : jdict)
  (n : Z) (nm : json) :
  jget "name" r = Some nm ->
  (accepted_id (jget "uid" r) = false ->
   UserEntry_init iconf (JDict r) n = raise (ValueError (Msg "invalid uid value")))
  /\ (accepted_id (jget "uid" r) = true -> accepted_id (jget "gid" r) = false ->
      UserEntry_init iconf (JDict r) n = raise (ValueError (Msg "invalid gid value")))
  /\ (accepted_id (jget "uid" r) = true -> accepted_id (jget "gid" r) = true ->
      exists u, UserEntry_init iconf (JDict r) n = ok u)
  /\ (accepted_id (jget "gid" r) = false ->
      GroupEntry_init iconf (JDict r) n = raise (ValueError (Msg "invalid gid value")))
  /\ (accepted_id (jget "gid" r) = true ->
      exists g, GroupEntry_init iconf (JDict r) n = ok g).
Proof.
  intros Hnm.
  rewrite UserEntry_init_dict, GroupEntry_init_dict, Hnm.
  repeat split.
  - intros Hu. now rewrite (check_id_rejected _ _ Hu).
  - intros Hu Hg.
    destruct (check_id_accepted "invalid uid value" _ Hu) as [i ->].
    simpl. now rewrite (check_id_rejected _ _ Hg).
  - intros Hu Hg.
    destruct (check_id_accepted "invalid uid value" _ Hu) as [i ->].
    destruct (check_id_accepted "invalid gid value" _ Hg) as [j ->].
    simpl. eexists. reflexivity.
  - intros Hg. now rewrite (check_id_rejected _ _ Hg).
  - intros Hg.
    destruct (check_id_accepted "invalid gid value" _ Hg) as [j ->].
    simpl. eexists. reflexivity.
Qed.

(** ** The end-to-end example of the specification *)

Example get_instance_x :
  get store_alice (JString "x") = ok inst_alice.
Proof. reflexivity. Qed.

Example global_options_x :
  global_options inst_alice = ([("workgroup", JString "WG")], None).
Proof. reflexivity. Qed.

Example share_options_x :
  shares inst_alice = ([mkShareConfig store_alice (JString "s1")], None) /\
  share_options (mkShareConfig store_alice (JString "s1")) =
    ok [("path", JString "/srv")].
Proof. split; reflexivity. Qed.

Example passwd_fields_alice :
  exists u,
    users inst_alice = ([u], None) /\
    passwd_fields u =
      (JString "alice", "x", "1000", "1000", "", "/invalid", "/bin/false").
Proof. eexists. split; reflexivity. Qed.

(** A user alone gets a virtual group under the user's name and gid. *)
Example groups_alice_alone :
  exists g,
    groups inst_alice = ([g], None) /\
    groupname g = JString "alice" /\
    GroupEntry_gid g = ok (PyInt 1000) /\
    group_fields g = ok (JString "alice", "x", "1000", "").
Proof. eexists. repeat split; reflexivity. Qed.

(** The second document's "globals" replaces the first's: [g1] is gone. *)
Example second_document_replaces_globals :
  exists self1 self2,
    load (JDict base_document) (mkGlobalConfig []) = (ok tt, self1) /\
    load (JDict second_document) self1 = (ok tt, self2) /\
    jget "globals" (data self2) = Some (JDict [("g2", JDict [])]) /\
    jget "shares" (data self2) = jget "shares" base_document.
Proof. eexists. eexists. repeat split; reflexivity. Qed.

(** ** Evaluations and instances *)

(** C1: with the user alice (derived gid 1000) and one group record, staff
    with gid 1000, groups raises AttributeError on the first group record,
    before it yields anything: the loop calls gid() on the raw record. The
    explicit group staff is never yielded. *)
Theorem groups_raises_on_group_record :
  get store_alice_staff (JString "x") = ok inst_alice_staff /\
  (exists u, users inst_alice_staff = ([u], None) /\ gid u = PyInt 1000) /\
  (exists g, GroupEntry_init inst_alice_staff (JDict staff) 0 = ok g /\
             GroupEntry_gid g = ok (PyInt 1000)) /\
  groups inst_alice_staff = ([], Some (AttributeError "gid")).
Proof.
  split; [reflexivity|].
  split; [eexists; split; reflexivity|].
  split; [eexists; split; reflexivity|].
  reflexivity.
Qed.

(** C2: the group built from a record without gid, at position 3, has no
    effective gid: reading it raises AttributeError, where the user built
    from the same record at the same position has the gid 1003. *)
Theorem group_default_gid_raises :
  (exists g, GroupEntry_init inst_alice (JDict wheel) 3 = ok g /\
             GroupEntry_gid g = raise (AttributeError "entry_num")) /\
  (exists u, UserEntry_init inst_alice (JDict wheel) 3 = ok u /\
             gid u = PyInt 1003).
Proof.
  split; eexists; split; reflexivity.
Qed.

(** C9: group_fields of the group built from a record without gid raises
    AttributeError instead of returning the 4-tuple. *)
Theorem group_fields_raises_without_gid :
  exists g, GroupEntry_init inst_alice (JDict wheel) 0 = ok g /\
            group_fields g = raise (AttributeError "entry_num").
Proof.
  eexists. split; reflexivity.
Qed.

Lemma users_effective_ids_witness :
  source_list (gconfig inst_two_users) "users" [JDict alice; JDict bob] /\
  users inst_two_users = (fst (users inst_two_users), None) /\
  nth_error [JDict alice; JDict bob] 1 = Some (JDict bob) /\
  nth_error (fst (users inst_two_users)) 1 = Some user_bob /\
  uid user_bob = PyInt 2000 /\
  gid user_bob = PyInt (gid_base inst_two_users + 1).
Proof.
  assert (source_list (gconfig inst_two_users) "users" [JDict alice; JDict bob])
    as H1.
  { eexists. split; reflexivity. }
  assert (users inst_two_users = (fst (users inst_two_users), None)) as H2
    by reflexivity.
  assert (nth_error [JDict alice; JDict bob] 1 = Some (JDict bob)) as H3
    by reflexivity.
  assert (nth_error (fst (users inst_two_users)) 1 = Some user_bob) as H4
    by reflexivity.
  destruct (users_effective_ids inst_two_users _ _ _ 1%nat bob user_bob
              H1 H2 H3 H4) as (Hu & _ & _ & Hg).
  split; [exact H1|]. split; [exact H2|]. split; [exact H3|].
  split; [exact H4|]. split.
  - apply (Hu 2000); [reflexivity|lia].
  - apply Hg. right. reflexivity.
Defined.

(** The claim of C4 fails for an instance named with the empty string: the
    name is configured, the section exists, and no ("netbios name", "") pair
    ends the options. *)
Lemma empty_instance_name_not_yielded :
  jget "instance_name" instance_unnamed = Some (JString "") /\
  Forall2 (has_section g1_sections) ["g1"] [[("workgroup", JString "WG")]] /\
  global_options (mkInstanceConfig store_alice (JDict instance_unnamed)) =
    ([("workgroup", JString "WG")], None) /\
  ~ (exists pre,
       fst (global_options (mkInstanceConfig store_alice (JDict instance_unnamed)))
       = pre ++ [("netbios name", JString "")]).
Proof.
  split; [reflexivity|].
  split.
  { constructor; [|constructor].
    eexists. split; [reflexivity|]. left. reflexivity. }
  split; [reflexivity|].
  intros [pre Hpre]. simpl in Hpre.
  change [("workgroup", JString "WG")]
    with ([] ++ [("workgroup", JString "WG")]) in Hpre.
  apply app_inj_tail in Hpre as [_ Hpair]. discriminate Hpair.
Qed.

Lemma global_options_listing_witness :
  jget "globals" (data store_alice) = Some (JDict g1_sections) /\
  jget "globals" instance_named =
    Some (JList (map JString ["g1"; "g1"])) /\
  Forall2 (has_section g1_sections) ["g1"; "g1"]
    [[("workgroup", JString "WG")]; [("workgroup", JString "WG")]] /\
  global_options (mkInstanceConfig store_alice (JDict instance_named)) =
    ([("workgroup", JString "WG"); ("workgroup", JString "WG");
      ("netbios name", JString "FILESRV")], None).
Proof.
  assert (has_section g1_sections "g1" [("workgroup", JString "WG")]) as Hs.
  { eexists. split; [reflexivity|]. left. reflexivity. }
  assert (Forall2 (has_section g1_sections) ["g1"; "g1"]
            [[("workgroup", JString "WG")]; [("workgroup", JString "WG")]]) as H3.
  { repeat constructor; exact Hs. }
  split; [reflexivity|]. split; [reflexivity|]. split; [exact H3|].
  destruct (global_options_listing store_alice instance_named g1_sections
              ["g1"; "g1"] _ eq_refl eq_refl H3) as [Hnamed _].
  exact (Hnamed (JString "FILESRV") eq_refl eq_refl).
Defined.

(** The claim of C7 fails for an id field that is present and null, and for
    one that is a boolean: neither is an integer of the document, and both
    records are constructed. *)
Lemma null_and_bool_ids_constructed :
  (jget "uid" null_uid = Some JNull /\
   (forall z, JNull <> JInt z) /\
   exists u, UserEntry_init inst_alice (JDict null_uid) 0 = ok u /\
             uid u = PyInt 1000) /\
  (jget "gid" true_gid = Some (JBool true) /\
   (forall z, JBool true <> JInt z) /\
   exists g, GroupEntry_init inst_alice (JDict true_gid) 0 = ok g /\
             group_fields g = ok (JString "ops", "x", "True", "")).
Proof.
  split; (split; [reflexivity|]);
    (split; [intros z; discriminate|]);
    eexists; split; reflexivity.
Qed.

Lemma id_fields_checked_at_construction_witness :
  jget "name" text_uid = Some (JString "dave") /\
  UserEntry_init inst_alice (JDict text_uid) 0 =
    raise (ValueError (Msg "invalid uid value")) /\
  (exists g, GroupEntry_init inst_alice (JDict text_uid) 0 = ok g).
Proof.
  destruct (id_fields_checked_at_construction inst_alice text_uid 0
              (JString "dave") eq_refl) as (Hu & _ & _ & _ & Hg).
  split; [reflexivity|].
  split; [exact (Hu eq_refl)|exact (Hg eq_refl)].
Defined.

Lemma missing_key_raises_witness :
  get store_alice (JString "y") = raise (KeyError (JString "y")) /\
  global_options (mkInstanceConfig store_alice (JDict instance_dangling)) =
    ([("workgroup", JString "WG")], Some (KeyError (JString "g2"))) /\
  share_options (mkShareConfig store_alice (JString "s2")) =
    raise (KeyError (JString "s2")).
Proof.
  destruct (missing_key_raises store_alice) as (Hget & Hglobals & Hshare).
  split; [|split].
  - apply (Hget [("x", instance_x)] "y"); reflexivity.
  - apply (Hglobals g1_sections instance_dangling ["g1"] "g2" ["g1"]
             [[("workgroup", JString "WG")]]); try reflexivity.
    constructor; [|constructor].
    eexists. split; [reflexivity|]. left. reflexivity.
  - apply (Hshare
             [("s1", JDict [("options", JDict [("path", JString "/srv")])])]
             "s2"); reflexivity.
Defined.

Lemma distinct_keys_base_document : dict_wf base_document.
Proof.
  unfold dict_wf. simpl.
  repeat constructor; simpl; intuition discriminate.
Defined.

Lemma distinct_keys_second_document : dict_wf second_document.
Proof.
  unfold dict_wf. simpl.
  repeat constructor; simpl; intuition discriminate.
Defined.

Lemma load_twice_shallow_merge_witness :
  dict_wf base_document /\ dict_wf second_document /\
  jget version_key base_document = Some (JString "v0") /\
  jget version_key second_document = Some (JString "v0") /\
  exists self1 self2,
    load (JDict base_document) store_alice = (ok tt, self1) /\
    load (JDict second_document) self1 = (ok tt, self2) /\
    forall k,
      jget k (data self2) =
        match jget k second_document with
        | Some v => Some v
        | None =>
            match jget k base_document with
            | Some v => Some v
            | None => jget k (data store_alice)
            end
        end.
Proof.
  split; [exact distinct_keys_base_document|].
  split; [exact distinct_keys_second_document|].
  split; [reflexivity|]. split; [reflexivity|].
  exact (load_twice_shallow_merge base_document second_document store_alice
           distinct_keys_base_document distinct_keys_second_document
           eq_refl eq_refl).
Defined.

(** * Further properties *)

(** ** Reading several documents *)

Lemma load_raise_any_store (source : json) (self self' : GlobalConfig) (e : exn) :
  fst (load source self) = raise e ->
  load source self' = (raise e, self').
Proof.
  unfold load. destruct source; simpl; try (intros [= <-]; reflexivity).
  destruct (is_None _); [intros [= <-]; reflexivity|].
  destruct (negb _); [intros [= <-]; reflexivity|].
  intros [=].
Qed.

Lemma load_ok_marker (d : jdict) (self self' : GlobalConfig) :
  load (JDict d) self = (ok tt, self') ->
  jget version_key d = Some (JString "v0") /\
  self' = mkGlobalConfig (jupdate (data self) d).
Proof.
  destruct (jget version_key d) as [v|] eqn:Hv.
  - destruct v; try (destruct (load_bad_marker d self _ Hv) as [msg ->];
                     [discriminate|intros [=]]).
    destruct (string_dec s "v0") as [->|Hs].
    + rewrite (load_accepts d self Hv). intros [= <-]. now split.
    + destruct (load_bad_marker d self _ Hv) as [msg ->].
      * intros [= ->]. now apply Hs.
      * intros [=].
  - rewrite (load_no_marker d self Hv). intros [=].
Qed.

Lemma load_all_cons (src : json) (rest : list json) (self : GlobalConfig) :
  load_all (src :: rest) self =
    match load src self with
    | (inl e, self') => (raise e, self')
    | (inr _, self') => load_all rest self'
    end.
Proof. reflexivity. Qed.

Lemma load_all_valid (docs : list jdict) (self : GlobalConfig) :
  Forall valid_document docs ->
  load_all (map JDict docs) self =
    (ok tt, mkGlobalConfig (merge_all (data self) docs)).
Proof.
  intros Hdocs. revert self.
  induction Hdocs as [|d docs [_ Hv] _ IH]; intros self.
  - now destruct self.
  - simpl map. rewrite load_all_cons, (load_accepts d self Hv).
    rewrite IH. reflexivity.
Qed.

Lemma jget_merge_all_absent (k : string) (docs : list jdict) (store : jdict) :
  Forall dict_wf docs ->
  key_absent k docs ->
  jget k (merge_all store docs) = jget k store.
Proof.
  intros Hwf Habs. revert store.
  induction Habs as [|d docs Hd _ IH]; intros store; simpl.
  - reflexivity.
  - inversion Hwf as [|? ? Hwfd Hwf']; subst.
    rewrite (IH Hwf'). rewrite (jget_jupdate k store d Hwfd). now rewrite Hd.
Qed.

Lemma jget_merge_all_last (k : string) (v : json) (pre post : list jdict)
  (d : jdict) (store : jdict) :
  Forall dict_wf (pre ++ d :: post) ->
  jget k d = Some v ->
  key_absent k post ->
  jget k (merge_all store (pre ++ d :: post)) = Some v.
Proof.
  intros Hwf Hd Hpost.
  apply Forall_app in Hwf as [_ Hwf].
  inversion Hwf as [|? ? Hwfd Hwfpost]; subst.
  unfold merge_all. rewrite fold_left_app. simpl.
  fold (merge_all (jupdate (fold_left jupdate pre store) d) post).
  rewrite (jget_merge_all_absent k post _ Hwfpost Hpost).
  rewrite (jget_jupdate k _ d Hwfd). now rewrite Hd.
Qed.

Lemma valid_documents_wf (docs : list jdict) :
  Forall valid_document docs -> Forall dict_wf docs.
Proof.
  intros H. eapply Forall_impl; [|exact H]. now intros d [Hwf _].
Qed.

(** X1: read_config_files over valid documents returns a store in which a
    top-level key has the value of the last document that has the key, and
    is missing when no document has it. *)
Theorem read_config_files_last_wins (docs : list jdict) :
  Forall valid_document docs ->
  exists g,
    read_config_files (map JDict docs) = ok g /\
    (forall k pre d post v,
       docs = pre ++ d :: post ->
       jget k d = Some v ->
       key_absent k post ->
       jget k (data g) = Some v) /\
    (forall k, key_absent k docs -> jget k (data g) = None).
Proof.
  intros Hdocs.
  exists (mkGlobalConfig (merge_all [] docs)).
  split; [|split].
  - unfold read_config_files. now rewrite (load_all_valid docs _ Hdocs).
  - intros k pre d post v -> Hd Hpost. simpl.
    apply jget_merge_all_last; try assumption.
    now apply valid_documents_wf.
  - intros k Habs. simpl.
    now rewrite (jget_merge_all_absent k docs [] (valid_documents_wf _ Hdocs) Habs).
Qed.

(** X2: the loop of read_config_files stops at the first document that load
    refuses: the exception is that load's, the documents before it stay
    merged in the store, the documents after it are not looked at, and
    read_config_files raises the same exception. *)
Theorem load_all_stops_at_first_failure (pre : list jdict) (bad : json)
  (post : list json) (e : exn) (self : GlobalConfig) :
  Forall valid_document pre ->
  fst (load bad (mkGlobalConfig [])) = raise e ->
  load_all (map JDict pre ++ bad :: post) self =
    (raise e, mkGlobalConfig (merge_all (data self) pre)) /\
  read_config_files (map JDict pre ++ bad :: post) = raise e.
Proof.
  intros Hpre Hbad.
  assert (forall self0,
            load_all (map JDict pre ++ bad :: post) self0 =
              (raise e, mkGlobalConfig (merge_all (data self0) pre))) as Hloop.
  { induction Hpre as [|d pre [_ Hv] _ IH]; intros self0.
    - simpl app. rewrite load_all_cons.
      rewrite (load_raise_any_store bad _ self0 e Hbad). now destruct self0.
    - simpl map. simpl app. rewrite load_all_cons, (load_accepts d self0 Hv).
      rewrite IH. reflexivity. }
  split; [apply Hloop|].
  unfold read_config_files. now rewrite Hloop.
Qed.

Lemma jset_same (k : string) (v : json) (d : jdict) :
  jget k d = Some v -> jset k v d = d.
Proof.
  induction d as [|[k1 v1] d IH]; simpl; [discriminate|].
  destruct (String.eqb_spec k k1) as [->|Hne].
  - intros [= ->]. reflexivity.
  - intros H. now rewrite (IH H).
Qed.

Lemma jget_in (k : string) (v : json) (d : jdict) :
  dict_wf d -> In (k, v) d -> jget k d = Some v.
Proof.
  unfold dict_wf.
  induction d as [|[k1 v1] d IH]; simpl; intros Hwf; [intros []|].
  inversion Hwf as [|? ? Hnin Hwf']; subst.
  intros [[= -> ->]|Hin].
  - now rewrite String.eqb_refl.
  - destruct (String.eqb_spec k k1) as [->|Hne].
    + exfalso. apply Hnin. change k1 with (fst (k1, v)).
      now apply in_map.
    + now apply IH.
Qed.

Lemma jupdate_same (store d : jdict) :
  (forall k v, In (k, v) d -> jget k store = Some v) ->
  jupdate store d = store.
Proof.
  unfold jupdate, PyDict.update.
  induction d as [|[k v] d IH]; simpl; intros H; [reflexivity|].
  fold (jset k v store). rewrite (jset_same k v store).
  - apply IH. intros k' v' Hin. apply H. now right.
  - apply H. now left.
Qed.

(** X3: loading the same valid document a second time changes nothing: the
    store, including the order of its keys, is the store after the first
    load. *)
Theorem load_twice_same_document (d : jdict) (self : GlobalConfig) :
  valid_document d ->
  exists self1,
    load (JDict d) self = (ok tt, self1) /\
    load (JDict d) self1 = (ok tt, self1).
Proof.
  intros [Hwf Hv].
  exists (mkGlobalConfig (jupdate (data self) d)).
  split; [now apply load_accepts|].
  rewrite (load_accepts d _ Hv). simpl.
  rewrite (jupdate_same (jupdate (data self) d) d); [reflexivity|].
  intros k v Hin.
  rewrite (jget_jupdate k (data self) d Hwf).
  now rewrite (jget_in k v d Hwf Hin).
Qed.

(** X4: after a load that succeeds the store itself carries the accepted
    version marker: the marker key is merged like any other key. *)
Theorem load_stores_marker (d : jdict) (self self' : GlobalConfig) :
  dict_wf d ->
  load (JDict d) self = (ok tt, self') ->
  jget version_key (data self') = Some (JString "v0").
Proof.
  intros Hwf Hload.
  destruct (load_ok_marker d self self' Hload) as [Hv ->]. simpl.
  rewrite (jget_jupdate version_key (data self) d Hwf). now rewrite Hv.
Qed.

(** ** The instance and share views *)

(** X5: get does not look at the instance document it finds: whatever value
    is stored under the identifier is wrapped; a store without "configs"
    raises KeyError on "configs"; and when the stored value is not an object,
    the failure only shows when a view is iterated: TypeError from
    global_options, AttributeError from shares. *)
Theorem get_wraps_any_document (g : GlobalConfig) (ident : string) :
  (jget "configs" (data g) = None ->
   get g (JString ident) = raise (KeyError (JString "configs"))) /\
  (forall configs doc,
     jget "configs" (data g) = Some (JDict configs) ->
     jget ident configs = Some doc ->
     get g (JString ident) = ok (mkInstanceConfig g doc) /\
     ((forall d, doc <> JDict d) ->
      global_options (mkInstanceConfig g doc) = ([], Some TypeError) /\
      shares (mkInstanceConfig g doc) = ([], Some (AttributeError "get")))).
Proof.
  split.
  - intros Hc. unfold get, data_getitem, py_getitem. now rewrite Hc.
  - intros configs doc Hc Hdoc. split.
    + unfold get, data_getitem, py_getitem. rewrite Hc. simpl. now rewrite Hdoc.
    + intros Hnot. destruct doc; try (split; reflexivity).
      exfalso. now apply (Hnot d).
Qed.

(** X6: global_options looks the "globals" of the store up inside its loop
    only. An instance without a "globals" key raises KeyError on "globals"
    with nothing yielded; an instance that lists a name while the store has
    no "globals" raises the same; an instance with an empty list never reads
    the store and yields just its per-instance settings. *)
Theorem global_options_globals_lookup (g : GlobalConfig) (i : jdict) :
  (jget "globals" i = None ->
   global_options (mkInstanceConfig g (JDict i)) =
     ([], Some (KeyError (JString "globals")))) /\
  (forall gname rest,
     jget "globals" i = Some (JList (gname :: rest)) ->
     jget "globals" (data g) = None ->
     global_options (mkInstanceConfig g (JDict i)) =
       ([], Some (KeyError (JString "globals")))) /\
  (jget "globals" i = Some (JList []) ->
   global_options (mkInstanceConfig g (JDict i)) =
     instance_options (mkInstanceConfig g (JDict i)) /\
   forall g', global_options (mkInstanceConfig g' (JDict i)) =
              global_options (mkInstanceConfig g (JDict i))).
Proof.
  split; [|split].
  - intros Hi. unfold global_options. simpl. now rewrite Hi.
  - intros gname rest Hi Hg. unfold global_options. simpl. rewrite Hi. simpl.
    unfold section_options, data_getitem, py_getitem. rewrite Hg.
    reflexivity.
  - intros Hi. unfold global_options. simpl. rewrite Hi. simpl.
    unfold instance_options. simpl. split.
    + destruct (jget "instance_name" i) as [v|]; simpl;
        [destruct (truthy v)|]; reflexivity.
    + reflexivity.
Qed.

Lemma gen_for_yield_map {A B} (f : A -> B) (l : list A) :
  gen_for l (fun x => gen_yield (f x)) = (map f l, None).
Proof.
  induction l as [|x l IH]; simpl; [reflexivity|].
  rewrite IH. reflexivity.
Qed.

(** X7: shares yields one view per listed name, in listed order, and nothing
    when the instance has no "shares" key; it never raises for a name that
    the store does not have, whatever the store holds. *)
Theorem shares_listed (g : GlobalConfig) (i : jdict) :
  (jget "shares" i = None ->
   shares (mkInstanceConfig g (JDict i)) = ([], None)) /\
  (forall snames,
     jget "shares" i = Some (JList snames) ->
     shares (mkInstanceConfig g (JDict i)) =
       (map (mkShareConfig g) snames, None)).
Proof.
  split.
  - intros Hi. unfold shares. simpl. now rewrite Hi.
  - intros snames Hi. unfold shares. simpl. rewrite Hi. simpl.
    apply gen_for_yield_map.
Qed.

Lemma share_options_ok (g : GlobalConfig) (stored : jdict) (sname : string)
  (opts : list (string * json)) :
  jget "shares" (data g) = Some (JDict stored) ->
  has_section stored sname opts ->
  share_options (mkShareConfig g (JString sname)) = ok opts.
Proof.
  intros Hs (sec & Hsec & Hopts).
  unfold share_options, data_getitem, py_getitem. simpl. rewrite Hs. simpl.
  rewrite Hsec. simpl.
  destruct Hopts as [H|[H ->]]; rewrite H; reflexivity.
Qed.

(** X8: when every share an instance lists is in the store, the views that
    shares yields give, in listed order, each share's options in stored
    order (none for a share without "options"). *)
Theorem shares_options_in_order (g : GlobalConfig) (i stored : jdict)
  (snames : list string) (optss : list (list (string * json))) :
  jget "shares" i = Some (JList (map JString snames)) ->
  jget "shares" (data g) = Some (JDict stored) ->
  Forall2 (has_section stored) snames optss ->
  exists views,
    shares (mkInstanceConfig g (JDict i)) = (views, None) /\
    map share_options views = map ok optss.
Proof.
  intros Hi Hs Hall.
  exists (map (mkShareConfig g) (map JString snames)). split.
  - unfold shares. simpl. rewrite Hi. simpl. apply gen_for_yield_map.
  - clear Hi.
    induction Hall as [|n opts l yss Hn _ IH]; simpl; [reflexivity|].
    rewrite (share_options_ok g stored n opts Hs Hn). now rewrite IH.
Qed.

(** ** Users *)

Lemma all_entries_enumerated (self : InstanceConfig) (section : string)
  (l : list (Z * json)) :
  all_entries self section = ok l -> exists raw, l = enumerate raw.
Proof.
  unfold all_entries.
  destruct (data_get (gconfig self) section) as [e|sec]; [discriminate|]. simpl.
  destruct (py_get sec "all_entries" (JDict [])) as [e|entries]; [discriminate|].
  simpl.
  destruct (py_iter entries) as [e|raw]; [discriminate|]. simpl.
  intros [= <-]. now exists raw.
Qed.

Lemma all_entries_no_records (self : InstanceConfig) (section : string) :
  no_records (gconfig self) section -> all_entries self section = ok [].
Proof.
  unfold all_entries, data_get, py_get.
  intros [Hnone|(sec & Hsec & [Hall|Hall])].
  - rewrite Hnone. reflexivity.
  - rewrite Hsec. simpl. rewrite Hall. reflexivity.
  - rewrite Hsec. simpl. rewrite Hall. reflexivity.
Qed.

Lemma users_body (self : InstanceConfig) (l : list (Z * json)) :
  gen_for l (fun '(n, entry) => gen_try (UserEntry_init self entry n) gen_yield) =
  gen_for l (fun p => gen_try (UserEntry_init self (snd p) (fst p)) gen_yield).
Proof.
  induction l as [|[n e] l IH]; simpl; [reflexivity|]. now rewrite IH.
Qed.

(** The entry yielded at position [i] was built with number [i]. *)
Lemma users_numbered (self : InstanceConfig) (us : list UserEntry)
  (ending : option exn) (i : nat) (u : UserEntry) :
  users self = (us, ending) ->
  nth_error us i = Some u ->
  exists entry, UserEntry_init self entry (Z.of_nat i) = ok u.
Proof.
  unfold users.
  destruct (all_entries self "users") as [e|l] eqn:Hall; simpl.
  - intros [= <- <-]. destruct i; discriminate.
  - destruct (all_entries_enumerated _ _ _ Hall) as [raw ->].
    rewrite users_body. intros Hgen Hu.
    destruct (gen_for_try_nth _ _ _ _ _ _ Hgen Hu) as [[n entry] [Hnth Hinit]].
    apply enumerate_from_nth in Hnth as [-> _]. simpl in Hinit.
    now exists entry.
Qed.

Lemma UserEntry_init_built (iconf : InstanceConfig) (entry : json) (n : Z)
  (u : UserEntry) :
  UserEntry_init iconf entry n = ok u ->
  user_iconfig u = iconf /\ entry_num u = n.
Proof.
  destruct entry; try discriminate.
  intros Hinit.
  destruct (UserEntry_init_ok _ _ _ _ Hinit) as (nm & a & b & _ & _ & _ & ->).
  now split.
Qed.

Lemma explicit_id_nonzero (x : option pyint) (i : pyint) :
  explicit_id x = Some i -> int_value i <> 0.
Proof.
  unfold explicit_id, pyint_truthy.
  destruct x as [j|]; [|discriminate].
  destruct (Z.eqb_spec (int_value j) 0) as [|Hne]; simpl; [discriminate|].
  now intros [= <-].
Qed.

Lemma ids_nonzero (u : UserEntry) :
  0 <= entry_num u -> int_value (uid u) <> 0 /\ int_value (gid u) <> 0.
Proof.
  intros Hn. unfold uid, gid, uid_base, gid_base. split.
  - destruct (explicit_id (_uid u)) as [i|] eqn:E.
    + exact (explicit_id_nonzero _ _ E).
    + cbn [int_value]. lia.
  - destruct (explicit_id (_gid u)) as [i|] eqn:E.
    + exact (explicit_id_nonzero _ _ E).
    + cbn [int_value]. lia.
Qed.

(** X9: no user that users yields has the effective uid 0 or the effective
    gid 0, whatever the records say: an explicit 0 (or false) falls back to
    base + position, which is at least 1000. *)
Theorem users_ids_never_zero (self : InstanceConfig) (us : list UserEntry)
  (ending : option exn) (u : UserEntry) :
  users self = (us, ending) ->
  In u us ->
  int_value (uid u) <> 0 /\ int_value (gid u) <> 0.
Proof.
  intros Husers Hin.
  apply In_nth_error in Hin as [i Hi].
  destruct (users_numbered self us ending i u Husers Hi) as [entry Hinit].
  apply UserEntry_init_built in Hinit as [_ Hnum].
  apply ids_nonzero. lia.
Qed.

Lemma good_record_built (iconf : InstanceConfig) (entry name_ : json) (n : Z) :
  good_record entry name_ ->
  exists u, UserEntry_init iconf entry n = ok u /\
            username u = name_ /\ entry_num u = n.
Proof.
  intros (r & -> & Hnm & Hu & Hg).
  rewrite UserEntry_init_dict, Hnm.
  destruct (check_id_accepted "invalid uid value" _ Hu) as [a ->].
  destruct (check_id_accepted "invalid gid value" _ Hg) as [b ->].
  simpl. eexists. split; [reflexivity|]. now split.
Qed.

Lemma good_records_built (iconf : InstanceConfig) (raw names : list json) :
  Forall2 good_record raw names ->
  forall start,
  exists us,
    Forall2 (fun p u => UserEntry_init iconf (snd p) (fst p) = ok u)
      (enumerate_from start raw) us /\
    map username us = names /\
    map entry_num us = positions start (List.length raw).
Proof.
  induction 1 as [|e nm raw names He _ IH]; intros start.
  - exists []. repeat split. constructor.
  - destruct (good_record_built iconf e nm start He) as (u & Hu & Hnm & Hn).
    destruct (IH (start + 1)) as (us & Hus & Hnames & Hnums).
    exists (u :: us). simpl. split; [|split].
    + constructor; assumption.
    + now rewrite Hnm, Hnames.
    + now rewrite Hn, Hnums.
Qed.

Lemma users_of_source_list (self : InstanceConfig) (raw : list json) :
  source_list (gconfig self) "users" raw ->
  users self =
    gen_for (enumerate raw)
      (fun p => gen_try (UserEntry_init self (snd p) (fst p)) gen_yield).
Proof.
  intros Hsrc. unfold users.
  rewrite (all_entries_source_list _ _ _ Hsrc). simpl.
  apply users_body.
Qed.

(** X10: when every record of the users list is an object with a name and
    acceptable id fields, users yields exactly one entry per record, in
    order, each with the record's name and its position as number. *)
Theorem users_one_per_record (self : InstanceConfig) (raw names : list json) :
  source_list (gconfig self) "users" raw ->
  Forall2 good_record raw names ->
  exists us,
    users self = (us, None) /\
    map username us = names /\
    map entry_num us = positions 0 (List.length raw).
Proof.
  intros Hsrc Hgood.
  destruct (good_records_built self raw names Hgood 0) as (us & Hus & Hn & Hp).
  exists us. split; [|now split].
  rewrite (users_of_source_list self raw Hsrc).
  now apply gen_for_try_all.
Qed.

Lemma gen_for_try_stop {A B} (f : A -> result B) (pre post : list A) (x : A)
  (e : exn) (ys : list B) :
  Forall2 (fun x y => f x = ok y) pre ys ->
  f x = raise e ->
  gen_for (pre ++ x :: post) (fun x => gen_try (f x) gen_yield) = (ys, Some e).
Proof.
  intros Hpre Hx.
  induction Hpre as [|a y l ys Ha _ IH]; simpl.
  - rewrite Hx. reflexivity.
  - rewrite Ha, IH. reflexivity.
Qed.

Lemma enumerate_from_app {A} (l1 l2 : list A) (start : Z) :
  enumerate_from start (l1 ++ l2) =
    enumerate_from start l1 ++
    enumerate_from (start + Z.of_nat (List.length l1)) l2.
Proof.
  revert start. induction l1 as [|x l1 IH]; intros start; simpl.
  - f_equal. lia.
  - rewrite IH. do 3 f_equal. lia.
Qed.

(** The generator of users up to the first record that cannot be built. *)
Lemma users_stop (self : InstanceConfig) (pre post : list json) (bad : json)
  (names : list json) (e : exn) :
  source_list (gconfig self) "users" (pre ++ bad :: post) ->
  Forall2 good_record pre names ->
  UserEntry_init self bad (Z.of_nat (List.length pre)) = raise e ->
  exists us, users self = (us, Some e) /\ map username us = names.
Proof.
  intros Hsrc Hgood Hbad.
  destruct (good_records_built self pre names Hgood 0) as (us & Hus & Hn & _).
  exists us. split; [|assumption].
  rewrite (users_of_source_list self _ Hsrc).
  unfold enumerate. rewrite enumerate_from_app. simpl.
  now apply gen_for_try_stop.
Qed.

(** X11: users stops at the first record that cannot be built: the entries
    of the records before it are yielded, then the constructor's exception
    ends the iteration, and the records after it are not looked at. *)
Theorem users_stop_at_bad_record (self : InstanceConfig) (pre post : list json)
  (bad : json) (names : list json) (e : exn) :
  source_list (gconfig self) "users" (pre ++ bad :: post) ->
  Forall2 good_record pre names ->
  UserEntry_init self bad (Z.of_nat (List.length pre)) = raise e ->
  exists us,
    users self = (us, Some e) /\
    map username us = names /\
    List.length us = List.length pre.
Proof.
  intros Hsrc Hgood Hbad.
  destruct (users_stop self pre post bad names e Hsrc Hgood Hbad)
    as (us & Hus & Hn).
  exists us. split; [assumption|]. split; [assumption|].
  rewrite <- (length_map username us), Hn.
  symmetry. exact (Forall2_length Hgood).
Qed.

(** X12: two records of the users list without uid, at different positions,
    give users with different effective uids; and likewise for the gid. *)
Theorem default_ids_distinct (self : InstanceConfig) (raw : list json)
  (us : list UserEntry) (ending : option exn)
  (i j : nat) (r r' : jdict) (u u' : UserEntry) :
  source_list (gconfig self) "users" raw ->
  users self = (us, ending) ->
  nth_error raw i = Some (JDict r) -> nth_error us i = Some u ->
  nth_error raw j = Some (JDict r') -> nth_error us j = Some u' ->
  i <> j ->
  (jget "uid" r = None -> jget "uid" r' = None -> uid u <> uid u') /\
  (jget "gid" r = None -> jget "gid" r' = None -> gid u <> gid u').
Proof.
  intros Hsrc Husers Hr Hu Hr' Hu' Hij.
  destruct (users_nth self raw us ending i u Hsrc Husers Hu) as [e [He Hinit]].
  destruct (users_nth self raw us ending j u' Hsrc Husers Hu') as [e' [He' Hinit']].
  rewrite Hr in He. injection He as <-.
  rewrite Hr' in He'. injection He' as <-.
  destruct (UserEntry_ids self r _ u Hinit) as (_ & Hud & _ & Hgd).
  destruct (UserEntry_ids self r' _ u' Hinit') as (_ & Hud' & _ & Hgd').
  split; intros Hn Hn'.
  - rewrite (Hud (or_introl Hn)), (Hud' (or_introl Hn')).
    unfold uid_base. intros H.
    assert (1000 + Z.of_nat i = 1000 + Z.of_nat j) by congruence. lia.
  - rewrite (Hgd (or_introl Hn)), (Hgd' (or_introl Hn')).
    unfold gid_base. intros H.
    assert (1000 + Z.of_nat i = 1000 + Z.of_nat j) by congruence. lia.
Qed.

(** X13: the name is read before anything else: a record without a name
    raises KeyError on "name" from either constructor, whatever its id
    fields hold; a record that is not an object raises TypeError. *)
Theorem record_without_name (iconf : InstanceConfig) (n : Z) :
  (forall r,
     jget "name" r = None ->
     UserEntry_init iconf (JDict r) n = raise (KeyError (JString "name")) /\
     GroupEntry_init iconf (JDict r) n = raise (KeyError (JString "name"))) /\
  (forall entry,
     (forall r, entry <> JDict r) ->
     UserEntry_init iconf entry n = raise TypeError /\
     GroupEntry_init iconf entry n = raise TypeError).
Proof.
  split.
  - intros r Hnm. rewrite UserEntry_init_dict, GroupEntry_init_dict, Hnm.
    now split.
  - intros entry Hnot. destruct entry; try (split; reflexivity).
    exfalso. now apply (Hnot d).
Qed.

(** ** The map of users by gid *)

Lemma gget_gset (k k' : pyint) (v : UserEntry) (d : gid_map) :
  PyDict.get pyint_eqb k (PyDict.set pyint_eqb k' v d) =
    if pyint_eqb k k' then Some v else PyDict.get pyint_eqb k d.
Proof.
  induction d as [|[k1 v1] d IH]; simpl; [reflexivity|].
  destruct (pyint_eqb k' k1) eqn:E1; simpl.
  - unfold pyint_eqb in *. apply Z.eqb_eq in E1. rewrite E1.
    destruct (int_value k =? int_value k1); reflexivity.
  - rewrite IH.
    destruct (pyint_eqb k k1) eqn:E2, (pyint_eqb k k') eqn:E3; try reflexivity.
    unfold pyint_eqb in *. apply Z.eqb_eq in E2, E3. apply Z.eqb_neq in E1.
    exfalso. apply E1. congruence.
Qed.

Lemma find_snoc {A} (p : A -> bool) (l : list A) (x : A) :
  find p (l ++ [x]) =
    match find p l with
    | Some y => Some y
    | None => if p x then Some x else None
    end.
Proof.
  induction l as [|y l IH]; simpl; [reflexivity|].
  destruct (p y); [reflexivity|exact IH].
Qed.

Lemma find_same {A} (p q : A -> bool) (l : list A) :
  (forall x, p x = q x) -> find p l = find q l.
Proof.
  intros H. induction l as [|y l IH]; simpl; [reflexivity|].
  rewrite H, IH. reflexivity.
Qed.

(** Looking a gid up in the map built from the users finds the last user
    with that gid. *)
Lemma gget_fold (k : pyint) (us : list UserEntry) (d : gid_map) :
  PyDict.get pyint_eqb k
    (fold_left (fun d u => PyDict.set pyint_eqb (gid u) u d) us d) =
    match last_with_gid k us with
    | Some u => Some u
    | None => PyDict.get pyint_eqb k d
    end.
Proof.
  revert d. induction us as [|u us IH]; intros d; simpl; [reflexivity|].
  rewrite IH, gget_gset. unfold last_with_gid. simpl. rewrite find_snoc.
  destruct (find _ (rev us)); [reflexivity|].
  destruct (pyint_eqb k (gid u)); reflexivity.
Qed.

Lemma codes_gset (c : Z) (k : pyint) (v : UserEntry) (d : gid_map) :
  In c (codes (PyDict.set pyint_eqb k v d)) -> c = int_value k \/ In c (codes d).
Proof.
  induction d as [|[k1 v1] d IH]; simpl.
  - intros [<-|[]]. now left.
  - destruct (pyint_eqb k k1); simpl.
    + intros H. now right.
    + intros [<-|H]; [right; now left|].
      destruct (IH H) as [->|Hin]; [now left|right; now right].
Qed.

Lemma gset_invariant (u : UserEntry) (d : gid_map) :
  NoDup (codes d) /\ keyed_by_gid d ->
  NoDup (codes (PyDict.set pyint_eqb (gid u) u d)) /\
  keyed_by_gid (PyDict.set pyint_eqb (gid u) u d).
Proof.
  unfold keyed_by_gid.
  induction d as [|[k1 v1] d IH]; simpl; intros [Hnd Hk].
  - split; [constructor; [intros []|constructor]|].
    constructor; [reflexivity|constructor].
  - inversion Hnd as [|? ? Hnin Hnd']; subst.
    inversion Hk as [|? ? Hk1 Hk']; subst.
    destruct (pyint_eqb (gid u) k1) eqn:E; simpl.
    + split; [constructor; assumption|].
      constructor; [|assumption]. simpl.
      unfold pyint_eqb in E. apply Z.eqb_eq in E. now symmetry.
    + destruct (IH (conj Hnd' Hk')) as [IHnd IHk].
      split; [|constructor; assumption].
      constructor; [|assumption].
      intros Hin. destruct (codes_gset _ _ _ _ Hin) as [Heq|Hin'].
      * unfold pyint_eqb in E. apply Z.eqb_neq in E. now apply E.
      * now apply Hnin.
Qed.

Lemma users_by_gid_invariant (us : list UserEntry) :
  NoDup (codes (users_by_gid us)) /\ keyed_by_gid (users_by_gid us).
Proof.
  unfold users_by_gid.
  assert (NoDup (codes []) /\ keyed_by_gid []) as Hnil.
  { split; constructor. }
  revert Hnil. generalize (@nil (pyint * UserEntry)) as d.
  induction us as [|u us IH]; intros d Hd; simpl; [exact Hd|].
  apply IH. now apply gset_invariant.
Qed.

Lemma gget_in (k : pyint) (w : UserEntry) (d : gid_map) :
  NoDup (codes d) -> In (k, w) d -> PyDict.get pyint_eqb k d = Some w.
Proof.
  induction d as [|[k1 v1] d IH]; simpl; intros Hnd; [intros []|].
  inversion Hnd as [|? ? Hnin Hnd']; subst.
  intros [[= -> ->]|Hin].
  - unfold pyint_eqb. now rewrite Z.eqb_refl.
  - destruct (pyint_eqb k k1) eqn:E.
    + exfalso. apply Hnin.
      unfold pyint_eqb in E. apply Z.eqb_eq in E. rewrite <- E.
      change (int_value k) with ((fun p : pyint * UserEntry => int_value (fst p)) (k, w)).
      now apply in_map.
    + now apply IH.
Qed.

Lemma gget_value (k : pyint) (w : UserEntry) (d : gid_map) :
  PyDict.get pyint_eqb k d = Some w -> In w (PyDict.values d).
Proof.
  induction d as [|[k1 v1] d IH]; simpl; [discriminate|].
  destruct (pyint_eqb k k1).
  - intros [= ->]. now left.
  - intros H. right. now apply IH.
Qed.

Lemma last_with_gid_self (u : UserEntry) (us : list UserEntry) :
  In u us ->
  exists w, last_with_gid (gid u) us = Some w /\
            In w us /\ int_value (gid w) = int_value (gid u).
Proof.
  intros Hin. unfold last_with_gid.
  destruct (find (fun u0 => pyint_eqb (gid u) (gid u0)) (rev us)) as [w|] eqn:E.
  - exists w. split; [reflexivity|].
    apply find_some in E as [Hw Hp]. split.
    + now apply in_rev.
    + unfold pyint_eqb in Hp. apply Z.eqb_eq in Hp. now symmetry.
  - exfalso.
    pose proof (find_none _ _ E u (proj1 (in_rev us u) Hin)) as Hp.
    unfold pyint_eqb in Hp. now rewrite Z.eqb_refl in Hp.
Qed.

Lemma nodup_map_some (l : list Z) : NoDup l -> NoDup (map Some l).
Proof.
  induction 1 as [|x l Hnin _ IH]; simpl; constructor; [|exact IH].
  intros Hin. apply in_map_iff in Hin as (y & [= ->] & Hy). now apply Hnin.
Qed.

Lemma stored_gids_of_map (d : gid_map) :
  keyed_by_gid d ->
  map stored_gid (map virtual_group (PyDict.values d)) = map Some (codes d).
Proof.
  unfold keyed_by_gid, PyDict.values, codes.
  induction 1 as [|[k w] d Hk _ IH]; simpl; [reflexivity|].
  rewrite IH. unfold stored_gid at 1. simpl in *. now rewrite Hk.
Qed.

(** ** Groups *)

(** X14: when there are no group records, groups yields the virtual groups
    and nothing else: each yielded group is the virtual group of the last
    user with its gid, every user's gid has its group, and no two yielded
    groups have the same gid. *)
Theorem groups_without_records (self : InstanceConfig) (us : list UserEntry) :
  users self = (us, None) ->
  no_records (gconfig self) "groups" ->
  exists gs,
    groups self = (gs, None) /\
    (forall g, In g gs ->
       exists w, g = virtual_group w /\ last_with_gid (gid w) us = Some w) /\
    (forall u, In u us ->
       exists w, In (virtual_group w) gs /\
                 int_value (gid w) = int_value (gid u)) /\
    NoDup (map stored_gid gs).
Proof.
  intros Hus Hnone.
  destruct (users_by_gid_invariant us) as [Hnd Hkeyed].
  exists (map virtual_group (PyDict.values (users_by_gid us))).
  split; [|split; [|split]].
  - apply groups_no_records; [assumption|].
    now apply all_entries_no_records.
  - intros g Hg.
    apply in_map_iff in Hg as (w & <- & Hw).
    apply in_map_iff in Hw as ([k w'] & Hsnd & Hin). simpl in Hsnd. subst w'.
    exists w. split; [reflexivity|].
    pose proof (gget_in k w _ Hnd Hin) as Hget.
    unfold users_by_gid in Hget. rewrite gget_fold in Hget. simpl in Hget.
    assert (int_value k = int_value (gid w)) as Hk.
    { unfold keyed_by_gid in Hkeyed. rewrite Forall_forall in Hkeyed.
      exact (Hkeyed (k, w) Hin). }
    unfold last_with_gid in *.
    rewrite (find_same (fun u => pyint_eqb (gid w) (gid u))
               (fun u => pyint_eqb k (gid u))).
    + destruct (find _ (rev us)); [assumption|discriminate].
    + intros x. unfold pyint_eqb. now rewrite Hk.
  - intros u Hu.
    destruct (last_with_gid_self u us Hu) as (w & Hlast & _ & Hcode).
    exists w. split; [|assumption].
    apply in_map. apply (gget_value (gid u)).
    unfold users_by_gid. rewrite gget_fold. now rewrite Hlast.
  - rewrite (stored_gids_of_map _ Hkeyed). now apply nodup_map_some.
Qed.

Lemma virtual_group_of_last (us : list UserEntry) (g : GroupEntry) :
  In g (map virtual_group (PyDict.values (users_by_gid us))) ->
  exists w,
    In w us /\ g = virtual_group w /\ last_with_gid (gid w) us = Some w.
Proof.
  intros Hg.
  destruct (users_by_gid_invariant us) as [Hnd Hkeyed].
  apply in_map_iff in Hg as (w & <- & Hw).
  apply in_map_iff in Hw as ([k w'] & Hsnd & Hin). simpl in Hsnd. subst w'.
  pose proof (gget_in k w _ Hnd Hin) as Hget.
  unfold users_by_gid in Hget. rewrite gget_fold in Hget. simpl in Hget.
  assert (int_value k = int_value (gid w)) as Hk.
  { unfold keyed_by_gid in Hkeyed. rewrite Forall_forall in Hkeyed.
    exact (Hkeyed (k, w) Hin). }
  assert (last_with_gid (gid w) us = Some w) as Hlast.
  { unfold last_with_gid in *.
    rewrite (find_same (fun u => pyint_eqb (gid w) (gid u))
               (fun u => pyint_eqb k (gid u))).
    - destruct (find _ (rev us)); [assumption|discriminate].
    - intros x. unfold pyint_eqb. now rewrite Hk. }
  exists w. split; [|now split].
  unfold last_with_gid in Hlast. apply find_some in Hlast as [Hw _].
  now apply in_rev.
Qed.

(** X15: groups never yields a group built from a group record: whenever
    it yields anything at all, the groups list of the store has no record,
    all users could be built, and each yielded group is the virtual group
    of one of these users, the last one with its gid. *)
Theorem groups_yields_only_virtual (self : InstanceConfig)
  (gs : list GroupEntry) (ending : option exn) (g : GroupEntry) :
  groups self = (gs, ending) ->
  In g gs ->
  all_entries self "groups" = ok [] /\
  (forall raw, source_list (gconfig self) "groups" raw -> raw = []) /\
  ending = None /\
  exists us w,
    users self = (us, None) /\
    In w us /\
    g = virtual_group w /\
    last_with_gid (gid w) us = Some w.
Proof.
  unfold groups.
  destruct (users self) as [us [e|]]; [intros [= <- <-] []|].
  destruct (all_entries self "groups") as [e|[|[n entry] rest]] eqn:Hall; simpl.
  - intros [= <- <-] [].
  - rewrite gen_for_vgroups. simpl. intros [= <- <-] Hin.
    split; [reflexivity|]. split; [|split; [reflexivity|]].
    + intros raw Hsrc.
      rewrite (all_entries_source_list _ _ _ Hsrc) in Hall.
      destruct raw; [reflexivity|discriminate Hall].
    + destruct (virtual_group_of_last us g Hin) as (w & Hw & Hg & Hlast).
      exists us, w. repeat split; assumption.
  - intros [= <- <-] [].
Qed.

(** X16: with at least one record in the groups list and users that can all
    be built, groups raises AttributeError on the first record and yields
    nothing, not even the virtual groups. *)
Theorem groups_raises_with_any_record (self : InstanceConfig)
  (us : list UserEntry) (first : json) (rest : list json) :
  users self = (us, None) ->
  source_list (gconfig self) "groups" (first :: rest) ->
  groups self = ([], Some (AttributeError "gid")).
Proof.
  intros Hus Hsrc.
  apply (groups_first_record_raises self us (0, first)
           (enumerate_from (0 + 1) rest) Hus).
  now rewrite (all_entries_source_list _ _ _ Hsrc).
Qed.

(** X17: a user record that cannot be built makes groups raise the
    constructor's exception with nothing yielded, whatever the groups list
    holds. *)
Theorem groups_stop_at_bad_user (self : InstanceConfig) (pre post : list json)
  (bad : json) (names : list json) (e : exn) :
  source_list (gconfig self) "users" (pre ++ bad :: post) ->
  Forall2 good_record pre names ->
  UserEntry_init self bad (Z.of_nat (List.length pre)) = raise e ->
  groups self = ([], Some e).
Proof.
  intros Hsrc Hgood Hbad.
  destruct (users_stop self pre post bad names e Hsrc Hgood Hbad)
    as (us & Hus & _).
  unfold groups. now rewrite Hus.
Qed.

(** X18: a store without identity records gives an instance no users and no
    groups; neither generator raises. *)
Theorem no_identity_records (self : InstanceConfig) :
  no_records (gconfig self) "users" ->
  no_records (gconfig self) "groups" ->
  users self = ([], None) /\ groups self = ([], None).
Proof.
  intros Hu Hg.
  assert (users self = ([], None)) as Husers.
  { unfold users. now rewrite (all_entries_no_records _ _ Hu). }
  split; [assumption|].
  rewrite (groups_no_records self [] Husers (all_entries_no_records _ _ Hg)).
  reflexivity.
Qed.

(** ** Field projection *)

(** X19: the virtual group of a user numbered from 0 upwards projects to the
    user's name and to the same gid string as the user's passwd fields. *)
Theorem vgroup_fields_match_passwd (u : UserEntry) :
  0 <= entry_num u ->
  exists g gid_field,
    vgroup u = ok g /\
    passwd_fields u =
      (username u, "x", pyint_str (uid u), gid_field, "", "/invalid", "/bin/false") /\
    group_fields g = ok (username u, "x", gid_field, "").
Proof.
  intros Hn.
  exists (virtual_group u), (pyint_str (gid u)).
  split; [apply vgroup_ok|]. split; [reflexivity|].
  destruct (vgroup_gid u (virtual_group u) Hn (vgroup_ok u)) as [_ Hgid].
  now rewrite (group_fields_explicit _ _ Hgid).
Qed.

(** X20: a group record with a name and an explicit non-zero integer gid
    projects to (name, "x", the gid in decimal, ""), whatever its position. *)
Theorem group_fields_explicit_gid (iconf : InstanceConfig) (r : jdict) (n : Z)
  (nm : json) (G : Z) :
  jget "name" r = Some nm ->
  jget "gid" r = Some (JInt G) ->
  G <> 0 ->
  exists g,
    GroupEntry_init iconf (JDict r) n = ok g /\
    group_fields g = ok (nm, "x", pyint_str (PyInt G), "").
Proof.
  intros Hnm HG Hne.
  exists (mkGroupEntry iconf nm (Some (PyInt G))).
  split.
  - rewrite GroupEntry_init_dict, Hnm, HG. reflexivity.
  - unfold group_fields, GroupEntry_gid. cbn [group_gid].
    rewrite (explicit_id_int G Hne). reflexivity.
Qed.

(** X21: a user record with a name and no id fields projects to passwd
    fields whose uid and gid are both 1000 + its number, in decimal. *)
Theorem passwd_fields_default_ids (iconf : InstanceConfig) (r : jdict) (n : Z)
  (nm : json) :
  jget "name" r = Some nm ->
  jget "uid" r = None ->
  jget "gid" r = None ->
  exists u,
    UserEntry_init iconf (JDict r) n = ok u /\
    passwd_fields u =
      (nm, "x", pyint_str (PyInt (1000 + n)), pyint_str (PyInt (1000 + n)),
       "", "/invalid", "/bin/false").
Proof.
  intros Hnm Hu Hg.
  rewrite UserEntry_init_dict, Hnm, Hu, Hg. simpl.
  eexists. split; reflexivity.
Qed.

Lemma to_int_parses (z : Z) :
  NilZero.int_of_string (NilZero.string_of_int (Z.to_int z)) = Some (Z.to_int z).
Proof.
  apply NilZero.isi; destruct z; simpl; try discriminate;
    intros [= H]; now apply (DecimalPos.Unsigned.to_uint_nonnil p).
Qed.

Lemma pyint_str_parses (i : pyint) :
  NilZero.int_of_string (pyint_str i) =
    match i with
    | PyInt z => Some (Z.to_int z)
    | PyBool _ => None
    end.
Proof.
  destruct i as [z|[|]]; [apply to_int_parses|reflexivity|reflexivity].
Qed.

Lemma pyint_str_inj (i j : pyint) : pyint_str i = pyint_str j -> i = j.
Proof.
  intros H.
  pose proof (pyint_str_parses i) as Hi. pose proof (pyint_str_parses j) as Hj.
  rewrite H in Hi. rewrite Hi in Hj. clear Hi.
  destruct i as [a|a], j as [b|b]; try discriminate.
  - injection Hj as Hj. apply DecimalZ.to_int_inj in Hj. now subst.
  - destruct a, b; try reflexivity; discriminate H.
Qed.

(** X22: the passwd fields tell users apart: two user entries with the same
    passwd fields have the same name, the same effective uid and the same
    effective gid. *)
Theorem passwd_fields_determine_ids (u u' : UserEntry) :
  passwd_fields u = passwd_fields u' ->
  username u = username u' /\ uid u = uid u' /\ gid u = gid u'.
Proof.
  unfold passwd_fields. intros [= Hn Hu Hg].
  split; [assumption|].
  split; now apply pyint_str_inj.
Qed.

(** ** Instances of the further properties *)

Lemma distinct_keys_third_document : dict_wf third_document.
Proof.
  unfold dict_wf. simpl.
  repeat constructor; simpl; intuition discriminate.
Defined.

Lemma three_valid_documents :
  Forall valid_document [base_document; second_document; third_document].
Proof.
  constructor; [split; [exact distinct_keys_base_document|reflexivity]|].
  constructor; [split; [exact distinct_keys_second_document|reflexivity]|].
  constructor; [split; [exact distinct_keys_third_document|reflexivity]|].
  constructor.
Defined.

Lemma read_config_files_last_wins_witness :
  Forall valid_document [base_document; second_document; third_document] /\
  exists g,
    read_config_files
      (map JDict [base_document; second_document; third_document]) = ok g /\
    jget "globals" (data g) = Some (JDict [("g2", JDict [])]) /\
    jget "shares" (data g) = Some (JDict [("s9", JDict [])]) /\
    jget "users" (data g) = None.
Proof.
  split; [exact three_valid_documents|].
  destruct (read_config_files_last_wins _ three_valid_documents)
    as (g & Hread & Hlast & Habsent).
  exists g. split; [exact Hread|]. split; [|split].
  - apply (Hlast "globals" [base_document] second_document [third_document]);
      [reflexivity|reflexivity|].
    repeat constructor.
  - apply (Hlast "shares" [base_document; second_document] third_document []);
      [reflexivity|reflexivity|constructor].
  - apply Habsent. repeat constructor.
Defined.

Lemma load_all_stops_at_first_failure_witness :
  Forall valid_document [base_document] /\
  fst (load (JDict unversioned_document) (mkGlobalConfig [])) =
    raise (ValueError (MsgFmt "Invalid config: unknown version " (JString "v1"))) /\
  load_all
    (map JDict [base_document] ++
     JDict unversioned_document :: [JDict second_document])
    (mkGlobalConfig []) =
    (raise (ValueError (MsgFmt "Invalid config: unknown version " (JString "v1"))),
     mkGlobalConfig (merge_all [] [base_document])) /\
  read_config_files
    (map JDict [base_document] ++
     JDict unversioned_document :: [JDict second_document]) =
    raise (ValueError (MsgFmt "Invalid config: unknown version " (JString "v1"))).
Proof.
  assert (Forall valid_document [base_document]) as H1.
  { constructor; [|constructor].
    split; [exact distinct_keys_base_document|reflexivity]. }
  split; [exact H1|]. split; [reflexivity|].
  exact (load_all_stops_at_first_failure [base_document]
           (JDict unversioned_document) [JDict second_document] _
           (mkGlobalConfig []) H1 eq_refl).
Defined.

Lemma load_twice_same_document_witness :
  valid_document base_document /\
  exists self1,
    load (JDict base_document) store_alice = (ok tt, self1) /\
    load (JDict base_document) self1 = (ok tt, self1).
Proof.
  assert (valid_document base_document) as H1.
  { split; [exact distinct_keys_base_document|reflexivity]. }
  split; [exact H1|].
  exact (load_twice_same_document base_document store_alice H1).
Defined.

Lemma load_stores_marker_witness :
  dict_wf second_document /\
  load (JDict second_document) (mkGlobalConfig []) =
    (ok tt, mkGlobalConfig second_document) /\
  jget version_key (data (mkGlobalConfig second_document)) = Some (JString "v0").
Proof.
  split; [exact distinct_keys_second_document|]. split; [reflexivity|].
  exact (load_stores_marker second_document (mkGlobalConfig [])
           (mkGlobalConfig second_document)
           distinct_keys_second_document eq_refl).
Defined.

Lemma get_wraps_any_document_witness :
  get (mkGlobalConfig []) (JString "x") = raise (KeyError (JString "configs")) /\
  get store_odd (JString "x") = ok (mkInstanceConfig store_odd (JList [])) /\
  global_options (mkInstanceConfig store_odd (JList [])) = ([], Some TypeError) /\
  shares (mkInstanceConfig store_odd (JList [])) =
    ([], Some (AttributeError "get")).
Proof.
  destruct (get_wraps_any_document (mkGlobalConfig []) "x") as [Hnone _].
  destruct (get_wraps_any_document store_odd "x") as [_ Hsome].
  destruct (Hsome [("x", JList [])] (JList []) eq_refl eq_refl) as [Hget Hviews].
  split; [exact (Hnone eq_refl)|]. split; [exact Hget|].
  apply Hviews. intros d. discriminate.
Defined.

Lemma global_options_globals_lookup_witness :
  global_options (mkInstanceConfig store_alice (JDict instance_no_globals)) =
    ([], Some (KeyError (JString "globals"))) /\
  global_options (mkInstanceConfig (mkGlobalConfig []) instance_x) =
    ([], Some (KeyError (JString "globals"))) /\
  global_options (mkInstanceConfig (mkGlobalConfig []) (JDict instance_no_sections)) =
    instance_options
      (mkInstanceConfig (mkGlobalConfig []) (JDict instance_no_sections)).
Proof.
  destruct (global_options_globals_lookup store_alice instance_no_globals)
    as (H1 & _ & _).
  destruct (global_options_globals_lookup (mkGlobalConfig [])
              [("globals", JList [JString "g1"]);
               ("shares", JList [JString "s1"])])
    as (_ & H2 & _).
  destruct (global_options_globals_lookup (mkGlobalConfig []) instance_no_sections)
    as (_ & _ & H3).
  split; [exact (H1 eq_refl)|].
  split; [exact (H2 (JString "g1") [] eq_refl eq_refl)|].
  exact (proj1 (H3 eq_refl)).
Defined.

Lemma shares_listed_witness :
  shares (mkInstanceConfig store_alice (JDict instance_no_globals)) = ([], None) /\
  shares (mkInstanceConfig store_alice (JDict instance_lost_share)) =
    ([mkShareConfig store_alice (JString "nowhere")], None).
Proof.
  destruct (shares_listed store_alice instance_no_globals) as [H1 _].
  destruct (shares_listed store_alice instance_lost_share) as [_ H2].
  split; [exact (H1 eq_refl)|].
  exact (H2 [JString "nowhere"] eq_refl).
Defined.

Lemma shares_options_in_order_witness :
  jget "shares" (data store_alice) = Some (JDict stored_shares) /\
  Forall2 (has_section stored_shares) ["s1"] [[("path", JString "/srv")]] /\
  exists views,
    shares inst_alice = (views, None) /\
    map share_options views = map ok [[("path", JString "/srv")]].
Proof.
  assert (Forall2 (has_section stored_shares) ["s1"] [[("path", JString "/srv")]])
    as H3.
  { constructor; [|constructor].
    eexists. split; [reflexivity|]. left. reflexivity. }
  split; [reflexivity|]. split; [exact H3|].
  exact (shares_options_in_order store_alice
           [("globals", JList [JString "g1"]); ("shares", JList [JString "s1"])]
           stored_shares ["s1"] _ eq_refl eq_refl H3).
Defined.

Lemma users_ids_never_zero_witness :
  users (inst_users [JDict zero_ids]) = ([user_root], None) /\
  In user_root [user_root] /\
  int_value (uid user_root) <> 0 /\ int_value (gid user_root) <> 0.
Proof.
  assert (In user_root [user_root]) as H2 by (left; reflexivity).
  split; [reflexivity|]. split; [exact H2|].
  exact (users_ids_never_zero (inst_users [JDict zero_ids]) [user_root] None
           user_root eq_refl H2).
Defined.

Lemma alice_and_bob_good :
  Forall2 good_record [JDict alice; JDict bob] [JString "alice"; JString "bob"].
Proof.
  constructor; [|constructor; [|constructor]].
  - exists alice. repeat split.
  - exists bob. repeat split.
Defined.

Lemma users_one_per_record_witness :
  source_list (gconfig inst_two_users) "users" [JDict alice; JDict bob] /\
  Forall2 good_record [JDict alice; JDict bob] [JString "alice"; JString "bob"] /\
  exists us,
    users inst_two_users = (us, None) /\
    map username us = [JString "alice"; JString "bob"] /\
    map entry_num us = [0; 1].
Proof.
  assert (source_list (gconfig inst_two_users) "users" [JDict alice; JDict bob])
    as H1.
  { eexists. split; reflexivity. }
  split; [exact H1|]. split; [exact alice_and_bob_good|].
  exact (users_one_per_record inst_two_users _ _ H1 alice_and_bob_good).
Defined.

Lemma alice_good : Forall2 good_record [JDict alice] [JString "alice"].
Proof.
  constructor; [|constructor]. exists alice. repeat split.
Defined.

Lemma bad_user_source :
  source_list (gconfig (inst_users [JDict alice; JDict text_uid; JDict bob]))
    "users" ([JDict alice] ++ JDict text_uid :: [JDict bob]).
Proof.
  eexists. split; reflexivity.
Defined.

Lemma users_stop_at_bad_record_witness :
  source_list (gconfig (inst_users [JDict alice; JDict text_uid; JDict bob]))
    "users" ([JDict alice] ++ JDict text_uid :: [JDict bob]) /\
  Forall2 good_record [JDict alice] [JString "alice"] /\
  UserEntry_init (inst_users [JDict alice; JDict text_uid; JDict bob])
    (JDict text_uid) (Z.of_nat (List.length [JDict alice])) =
    raise (ValueError (Msg "invalid uid value")) /\
  exists us,
    users (inst_users [JDict alice; JDict text_uid; JDict bob]) =
      (us, Some (ValueError (Msg "invalid uid value"))) /\
    map username us = [JString "alice"] /\
    List.length us = 1%nat.
Proof.
  split; [exact bad_user_source|]. split; [exact alice_good|].
  split; [reflexivity|].
  exact (users_stop_at_bad_record _ [JDict alice] [JDict bob] (JDict text_uid)
           _ _ bad_user_source alice_good eq_refl).
Defined.

Lemma default_ids_distinct_witness :
  source_list (gconfig (inst_users [JDict alice; JDict wheel])) "users"
    [JDict alice; JDict wheel] /\
  exists u u',
    users (inst_users [JDict alice; JDict wheel]) = ([u; u'], None) /\
    uid u <> uid u' /\ gid u <> gid u'.
Proof.
  assert (source_list (gconfig (inst_users [JDict alice; JDict wheel])) "users"
            [JDict alice; JDict wheel]) as H1.
  { eexists. split; reflexivity. }
  split; [exact H1|].
  eexists. eexists. split; [reflexivity|].
  match goal with
  | |- uid ?a <> uid ?b /\ _ =>
      destruct (default_ids_distinct (inst_users [JDict alice; JDict wheel])
                  [JDict alice; JDict wheel] [a; b] None 0%nat 1%nat
                  alice wheel a b H1 eq_refl eq_refl eq_refl eq_refl eq_refl)
        as [Hu Hg]
  end.
  - intros [=].
  - split; [exact (Hu eq_refl eq_refl)|exact (Hg eq_refl eq_refl)].
Defined.

Lemma record_without_name_witness :
  UserEntry_init inst_alice (JDict nameless) 0 = raise (KeyError (JString "name")) /\
  GroupEntry_init inst_alice (JDict nameless) 0 = raise (KeyError (JString "name")) /\
  UserEntry_init inst_alice (JString "alice") 0 = raise TypeError /\
  GroupEntry_init inst_alice (JString "alice") 0 = raise TypeError.
Proof.
  destruct (record_without_name inst_alice 0) as [Hname Hobj].
  destruct (Hname nameless eq_refl) as [H1 H2].
  destruct (Hobj (JString "alice")) as [H3 H4]; [intros r; discriminate|].
  repeat split; assumption.
Defined.

Lemma groups_without_records_witness :
  users (inst_users [JDict alice; JDict carol]) =
    (fst (users (inst_users [JDict alice; JDict carol])), None) /\
  no_records (gconfig (inst_users [JDict alice; JDict carol])) "groups" /\
  exists gs,
    groups (inst_users [JDict alice; JDict carol]) = (gs, None) /\
    map groupname gs = [JString "carol"] /\
    NoDup (map stored_gid gs).
Proof.
  assert (no_records (gconfig (inst_users [JDict alice; JDict carol])) "groups")
    as H2 by (left; reflexivity).
  split; [reflexivity|]. split; [exact H2|].
  destruct (groups_without_records (inst_users [JDict alice; JDict carol])
              _ eq_refl H2) as (gs & Hgs & _ & _ & Hnd).
  exists gs. split; [exact Hgs|]. split; [|exact Hnd].
  assert (fst (groups (inst_users [JDict alice; JDict carol])) = gs) as <-
    by now rewrite Hgs.
  reflexivity.
Defined.

Lemma groups_yields_only_virtual_witness :
  exists g,
    groups inst_alice = ([g], None) /\
    In g [g] /\
    all_entries inst_alice "groups" = ok [] /\
    exists us w,
      users inst_alice = (us, None) /\
      In w us /\ g = virtual_group w /\ last_with_gid (gid w) us = Some w.
Proof.
  eexists. split; [reflexivity|].
  split; [left; reflexivity|].
  match goal with
  | |- _ /\ (exists us w, _ /\ _ /\ ?g = _ /\ _) =>
      destruct (groups_yields_only_virtual inst_alice [g] None g eq_refl
                  (or_introl eq_refl)) as (Hnone & _ & _ & Hw)
  end.
  split; [exact Hnone|exact Hw].
Defined.

Lemma groups_raises_with_any_record_witness :
  users inst_alice_staff = (fst (users inst_alice_staff), None) /\
  source_list (gconfig inst_alice_staff) "groups" [JDict staff] /\
  groups inst_alice_staff = ([], Some (AttributeError "gid")).
Proof.
  assert (source_list (gconfig inst_alice_staff) "groups" [JDict staff]) as H2.
  { eexists. split; reflexivity. }
  split; [reflexivity|]. split; [exact H2|].
  exact (groups_raises_with_any_record inst_alice_staff _ (JDict staff) []
           eq_refl H2).
Defined.

Lemma groups_stop_at_bad_user_witness :
  groups (inst_users [JDict alice; JDict text_uid; JDict bob]) =
    ([], Some (ValueError (Msg "invalid uid value"))).
Proof.
  exact (groups_stop_at_bad_user _ [JDict alice] [JDict bob] (JDict text_uid)
           _ _ bad_user_source alice_good eq_refl).
Defined.

Lemma no_identity_records_witness :
  no_records (gconfig inst_plain) "users" /\
  no_records (gconfig inst_plain) "groups" /\
  users inst_plain = ([], None) /\ groups inst_plain = ([], None).
Proof.
  assert (no_records (gconfig inst_plain) "users") as H1 by (left; reflexivity).
  assert (no_records (gconfig inst_plain) "groups") as H2 by (left; reflexivity).
  split; [exact H1|]. split; [exact H2|].
  exact (no_identity_records inst_plain H1 H2).
Defined.

Lemma vgroup_fields_match_passwd_witness :
  0 <= entry_num user_bob /\
  exists g gid_field,
    vgroup user_bob = ok g /\
    passwd_fields user_bob =
      (username user_bob, "x", pyint_str (uid user_bob), gid_field,
       "", "/invalid", "/bin/false") /\
    group_fields g = ok (username user_bob, "x", gid_field, "").
Proof.
  assert (0 <= entry_num user_bob) as H1 by (simpl; lia).
  split; [exact H1|].
  exact (vgroup_fields_match_passwd user_bob H1).
Defined.

Lemma group_fields_explicit_gid_witness :
  jget "name" staff = Some (JString "staff") /\
  jget "gid" staff = Some (JInt 1000) /\
  1000 <> 0 /\
  exists g,
    GroupEntry_init inst_alice (JDict staff) 7 = ok g /\
    group_fields g = ok (JString "staff", "x", pyint_str (PyInt 1000), "").
Proof.
  assert (1000 <> 0) as H3 by lia.
  split; [reflexivity|]. split; [reflexivity|]. split; [exact H3|].
  exact (group_fields_explicit_gid inst_alice staff 7 (JString "staff") 1000
           eq_refl eq_refl H3).
Defined.

Lemma passwd_fields_default_ids_witness :
  jget "name" alice = Some (JString "alice") /\
  jget "uid" alice = None /\ jget "gid" alice = None /\
  exists u,
    UserEntry_init inst_alice (JDict alice) 4 = ok u /\
    passwd_fields u =
      (JString "alice", "x", pyint_str (PyInt (1000 + 4)),
       pyint_str (PyInt (1000 + 4)), "", "/invalid", "/bin/false").
Proof.
  split; [reflexivity|]. split; [reflexivity|]. split; [reflexivity|].
  exact (passwd_fields_default_ids inst_alice alice 4 (JString "alice")
           eq_refl eq_refl eq_refl).
Defined.

Lemma passwd_fields_determine_ids_witness :
  passwd_fields user_bob =
    passwd_fields
      (mkUserEntry inst_alice (JString "bob") 0
         (Some (PyInt 2000)) (Some (PyInt 1001)) JNull JNull) /\
  uid user_bob = PyInt 2000 /\ gid user_bob = PyInt 1001.
Proof.
  split; [reflexivity|].
  destruct (passwd_fields_determine_ids user_bob
              (mkUserEntry inst_alice (JString "bob") 0
                 (Some (PyInt 2000)) (Some (PyInt 1001)) JNull JNull) eq_refl)
    as (_ & Hu & Hg).
  split; [exact Hu|exact Hg].
Defined.

(** The claim of C5 fails for a document that is not an object: the array
    [1, 2] has no version marker key, and load raises AttributeError on its
    missing [get], which is not the ValueError of an invalid config. *)
Lemma load_array_not_invalid_config :
  marker_of array_document = None /\
  load array_document store_one = (raise (AttributeError "get"), store_one) /\
  ~ (exists msg, fst (load array_document store_one) = raise (ValueError msg)).
Proof.
  split; [reflexivity|]. split; [reflexivity|].
  intros [msg H]. discriminate H.
Qed.

Lemma load_object_invalid_config_iff_witness :
  (exists msg,
     fst (load (JDict unversioned_document) store_alice) = raise (ValueError msg)) /\
  exists self',
    load (JDict second_document) store_alice = (ok tt, self') /\
    jget "globals" (data self') = Some (JDict [("g2", JDict [])]) /\
    jget "shares" (data self') = jget "shares" (data store_alice).
Proof.
  destruct (load_object_invalid_config_iff unversioned_document store_alice)
    as (Hfail & Hkind & _).
  destruct (load_object_invalid_config_iff second_document store_alice)
    as (_ & _ & Hmerge).
  split.
  - destruct (proj2 Hfail) as [e He].
    + right. exists (JString "v1"). split; [reflexivity|discriminate].
    + destruct (Hkind e He) as [msg ->]. now exists msg.
  - destruct (Hmerge eq_refl) as (self' & Hload & Hkeys).
    exists self'. split; [exact Hload|].
    split.
    + exact (Hkeys distinct_keys_second_document "globals").
    + exact (Hkeys distinct_keys_second_document "shares").
Defined.
